(** * markdown/generate-readme.ts: the README generator of react-ui-roundup

    A shallow embedding of [src/markdown/generate-readme.ts] and of the
    ramda / ramda-adjunct combinators it is written with, followed by the
    properties of the rendered report.

    Conventions of the embedding:
    - JavaScript strings are [string]; template literals are written out
      with [+:+].
    - A JavaScript object used as a dictionary whose key order is observed
      ([optionsById], enumerated by [values]) is an association list in
      enumeration order; one that is only looked up ([options],
      [frameworkFeaturesById], the stats index built by [indexBy]) is a
      [gmap string _].
    - [undefined] is [None]; the optional chain [a?.b?.c ?? d] is a chain of
      [option] binds closed by [default].
    - The imports from [./utils], [../utils], [../components] and
      [../frameworks] are not part of this file of the repository; they are
      taken as parameters (type classes [MarkdownUtils], [Utils], [Host] and
      the registry arguments), except for [lines], which is modelled. *)

From Stdlib Require Import ZArith Ascii String DecimalString List Lia.
From Stdlib Require Import Permutation Sorted.
From stdpp Require Import base option list strings gmap.

(** ** String primitives of the host language *)

Module Js.

(** The one-character strings that cannot be written inside a literal. *)
Definition nl : string := String (ascii_of_nat 10) EmptyString.
Definition dq : string := String (ascii_of_nat 34) EmptyString.

(** [s.length > 0] *)
Definition nonEmpty (s : string) : bool :=
  match s with
  | EmptyString => false
  | String _ _ => true
  end.

(** Drop the first [n] characters. *)
Fixpoint skip (n : nat) (s : string) : string :=
  match n, s with
  | O, _ => s
  | S n', String _ s' => skip n' s'
  | S _, EmptyString => EmptyString
  end.

(** [s.replace(/pat/, rep)] for a pattern [pat] without metacharacters and
    without the [g] flag: the leftmost occurrence of [pat] is replaced, the
    rest of the string is kept. *)
Fixpoint replace (pat rep s : string) : string :=
  if String.prefix pat s then rep +:+ skip (String.length pat) s
  else match s with
       | EmptyString => EmptyString
       | String c s' => String c (replace pat rep s')
       end.

(** [s.includes(pat)] *)
Fixpoint includes (pat s : string) : bool :=
  if String.prefix pat s then true
  else match s with
       | EmptyString => false
       | String _ s' => includes pat s'
       end.

(** [s.endsWith(pat)] *)
Fixpoint endsWith (pat s : string) : bool :=
  if String.eqb pat s then true
  else match s with
       | EmptyString => false
       | String _ s' => endsWith pat s'
       end.

(** The comparison [a < b] on strings. *)
Definition lt (a b : string) : bool := String.ltb a b.

End Js.

(** ** ramda *)

Module R.

Section Combinators.
Context {A B : Type}.

(** [R.intersperse(sep, list)] *)
Fixpoint intersperse (sep : A) (l : list A) : list A :=
  match l with
  | [] => []
  | [x] => [x]
  | x :: l' => x :: sep :: intersperse sep l'
  end.

(** [R.update(idx, x, list)]: a copy of [list] with the element at index
    [(len + idx) % len] replaced, so that a negative [idx] counts from the
    end; an index with [idx >= len] or [idx < -len] leaves the list as it
    is. *)
Definition update (idx : Z) (x : A) (l : list A) : list A :=
  let len := Z.of_nat (length l) in
  if ((len <=? idx) || (idx <? - len))%Z then l
  else <[Z.to_nat ((len + idx) mod len) := x]> l.

(** [R.append(x, list)] *)
Definition append (x : A) (l : list A) : list A := l ++ [x].

(** [R.filter(pred, list)] and [R.reject(pred, list)] *)
Definition filter (pred : A → bool) (l : list A) : list A := List.filter pred l.
Definition reject (pred : A → bool) (l : list A) : list A :=
  List.filter (λ x, negb (pred x)) l.

(** [R.map], [R.pluck(field)] and [R.chain] *)
Definition map (f : A → B) (l : list A) : list B := List.map f l.
Definition pluck (field : A → B) (l : list A) : list B := List.map field l.
Definition chain (f : A → list B) (l : list A) : list B := List.flat_map f l.

(** [R.values(obj)]: the values of the own properties, in enumeration order. *)
Definition values (obj : list (string * A)) : list A := List.map snd obj.

(** [R.sortBy(key, list)] copies the list and sorts it with the comparator
    [a < b ? -1 : a > b ? 1 : 0] on the keys. The host sort is stable; it is
    embedded as a stable insertion sort. *)
Fixpoint insertBy (key : A → string) (x : A) (l : list A) : list A :=
  match l with
  | [] => [x]
  | y :: l' =>
      if Js.lt (key y) (key x) then y :: insertBy key x l' else x :: y :: l'
  end.

Definition sortBy (key : A → string) (l : list A) : list A :=
  foldr (insertBy key) [] l.

(** [R.indexBy(key, list)]: an object holding each element under its key; a
    later element replaces an earlier one with the same key. *)
Definition indexBy (key : A → string) (l : list A) : gmap string A :=
  foldl (λ acc x, <[key x := x]> acc) ∅ l.

End Combinators.

(** [R.includes(x, list)] on strings ([R.equals] is character-wise equality). *)
Definition includes (x : string) (l : list string) : bool :=
  existsb (String.eqb x) l.

End R.

(** ** ramda-adjunct *)

Module RA.

(** [RA.compact(list)]: the list without its falsy elements; a fetched
    result is an object or absent. *)
Definition compact {A : Type} (l : list (option A)) : list A := omap id l.

(** [RA.concatAll(list)]: the left fold of [concat] over the list,
    [undefined] for the empty list. *)
Definition concatAll (l : list string) : option string :=
  match l with
  | [] => None
  | x :: l' => Some (foldl String.append x l')
  end.

End RA.

(** ** Entities ([../entities], as the generator reads them) *)

(** A framework's implementation of a component kind. A raw authored option
    or feature value is a value of the abstract type [Value]. *)
Module Component.
Record t (Value : Type) := mk {
  componentId : string;
  componentName : string;
  componentURL : string;
  options : gmap string Value;
}.
Arguments mk {Value}.
Arguments componentId {Value}.
Arguments componentName {Value}.
Arguments componentURL {Value}.
Arguments options {Value}.
End Component.

Module Framework.
Record t (Value : Type) := mk {
  frameworkId : string;
  frameworkName : string;
  frameworkHomepage : string;
  repoURL : string;
  components : list (Component.t Value);
  frameworkFeaturesById : gmap string Value;
}.
Arguments mk {Value}.
Arguments frameworkId {Value}.
Arguments frameworkName {Value}.
Arguments frameworkHomepage {Value}.
Arguments repoURL {Value}.
Arguments components {Value}.
Arguments frameworkFeaturesById {Value}.
End Framework.

(** [type EnhancedComponent = Component & Pick<Framework, 'frameworkName' | 'frameworkId'>] *)
Module EnhancedComponent.
Record t (Value : Type) := mk {
  componentId : string;
  componentName : string;
  componentURL : string;
  options : gmap string Value;
  frameworkId : string;
  frameworkName : string;
}.
Arguments mk {Value}.
Arguments componentId {Value}.
Arguments componentName {Value}.
Arguments componentURL {Value}.
Arguments options {Value}.
Arguments frameworkId {Value}.
Arguments frameworkName {Value}.
End EnhancedComponent.

(** One comparison axis of a component kind. [toMarkdown] receives
    [options[optionId]], which is [undefined] when the component records no
    value for the option. *)
Module OptionInfo.
Record t (Value : Type) := mk {
  optionId : string;
  name : string;
  criteria : string;
  toMarkdown : option Value → string;
}.
Arguments mk {Value}.
Arguments optionId {Value}.
Arguments name {Value}.
Arguments criteria {Value}.
Arguments toMarkdown {Value}.
End OptionInfo.

(** [description] is a string or an object with a [markdown] field. *)
Inductive Description :=
  | DescriptionString (text : string)
  | DescriptionObject (markdown : string).

(** An entry of the registry [componentInfo]. *)
Module ComponentInfo.
Record t (Value : Type) := mk {
  componentId : string;
  cannonicalName : string;
  description : Description;
  indefiniteArticle : string;
  optionsById : list (string * OptionInfo.t Value);
}.
Arguments mk {Value}.
Arguments componentId {Value}.
Arguments cannonicalName {Value}.
Arguments description {Value}.
Arguments indefiniteArticle {Value}.
Arguments optionsById {Value}.
End ComponentInfo.

(** An entry of the registry [frameworkInfo]. *)
Module FrameworkInfo.
Record t (Value : Type) := mk {
  featureId : string;
  name : string;
  criteria : string;
  toMarkdown : option Value → string;
}.
Arguments mk {Value}.
Arguments featureId {Value}.
Arguments name {Value}.
Arguments criteria {Value}.
Arguments toMarkdown {Value}.
End FrameworkInfo.

(** What [getRepoInfo] resolves to: the fields of the repository record that
    the generator reads. Each may be missing, and [license] may be [null]. *)
Module License.
Record t := mk {
  name : option string;
}.
End License.

Module RepoInfo.
Record t := mk {
  html_url : string;
  stargazers_count : option Z;
  forks_count : option Z;
  open_issues_count : option Z;
  license : option License.t;
}.
End RepoInfo.

(** ** Imports that live outside this file *)

(** [./utils]: the markdown constructors. [link] takes the fields of its
    argument object in the order [text], [href]. *)
Class MarkdownUtils := {
  h1 : string → string;
  h2 : string → string;
  p : string → string;
  link : string → string → string;
  table : list string → list (list string) → string;
  criteria : list (string * string) → string;
  quote : string → string;
  inlineCode : string → string;
  website : string;
  websiteHref : string;
}.

(** [../utils] *)
Class Utils := {
  removeProtocol : string → string;
  getRepoInfo : string → option RepoInfo.t;
  noValue : string;
  toStablePairs : ∀ A : Type, list (string * A) → list (string * A);
  issueURL : string;
}.

(** The host: [Number.prototype.toLocaleString] on the counts and
    [new Date().toUTCString()] at the time of the run. *)
Class Host := {
  toLocaleString : Z → string;
  utcNow : string;
}.

(** Modelled from the spec: [lines] of [./utils] is not in this file of the
    repository. Section 4.1: it joins an ordered sequence of blocks with a
    single separating blank line, and blocks producing empty content are
    dropped entirely. *)
Definition blankLine : string := Js.nl +:+ Js.nl.

Definition lines (blocks : list string) : string :=
  String.concat blankLine (List.filter Js.nonEmpty blocks).

(** ** The generator *)

Section GenerateReadme.
Context {markdownUtils : MarkdownUtils} {utils : Utils} {host : Host}.
Context {Value : Type}.

(** The registries imported from [../frameworks] and [../components]. *)
Variable frameworks : list (Framework.t Value).
Variable frameworkInfo : list (FrameworkInfo.t Value).
Variable componentInfo : list (ComponentInfo.t Value).

Definition pleaseFileIssue : string :=
  link "Please file an issue" issueURL.

Definition headerMarkdown : string :=
  lines [
    h1 "React UI Roundup";
    p "Are you a frontend developer or designer?  Do you wish you had a one-stop-shop you could go to see the various implementations of common components?  If so - React UI Roundup is for you!";
    p ("I decided to make this project "
       +:+ link "while contributing an Alert component to material-ui"
                "https://github.com/mui-org/material-ui/issues/18094"
       +:+ ". While thinking about that component, it was HUGELY helpful to review other implementations from everything from feature set, DOM structure, CSS usage, theming integration, prop naming, and more. I wanted something where I could stand back at a distance and look at many high-quality implementations of a similar component while I researched - so I made this project.");
    p ("An even more better version of this exact document is available at "
       +:+ website
       +:+ ".  It has special " +:+ Js.dq +:+ "Open All" +:+ Js.dq
       +:+ " buttons that allow you to open every link in a table with one click!  Also, the Framework Statistics section on the website is always up to date since it pulls the data in realtime when you load the page.")
  ].

Definition howToMakeAChange : string :=
  lines [
    h1 "How to Make a Change";
    p ("The README.md and website are both autogenerated from the same source input files.  For convenience, there is exactly one file for each project that has all the information for that project, located in the "
       +:+ link (inlineCode "frameworks directory")
                "https://github.com/dimitropoulos/react-ui-roundup/tree/master/frameworks"
       +:+ ".  To update any given data point, simply make a change to one of those files and run "
       +:+ inlineCode "yarn generate" +:+ ".")
  ].

(** *** Framework statistics *)

(** The four statistics cells of a row. [repoInfo[repoURL]] is a lookup in
    the index; a key that is not an own property of the index yields nothing
    that carries one of the fields read here, so it is [None]. *)
Definition starsCell (repoInfo : gmap string RepoInfo.t) (repoURL : string) : string :=
  default noValue
    (toLocaleString <$> (repoInfo !! repoURL ≫= RepoInfo.stargazers_count)).

Definition forksCell (repoInfo : gmap string RepoInfo.t) (repoURL : string) : string :=
  default noValue
    (toLocaleString <$> (repoInfo !! repoURL ≫= RepoInfo.forks_count)).

Definition issuesCell (repoInfo : gmap string RepoInfo.t) (repoURL : string) : string :=
  default noValue
    (toLocaleString <$> (repoInfo !! repoURL ≫= RepoInfo.open_issues_count)).

Definition licenseCell (repoInfo : gmap string RepoInfo.t) (repoURL : string) : string :=
  default noValue
    (Js.replace " License" EmptyString
       <$> ((repoInfo !! repoURL ≫= RepoInfo.license) ≫= License.name)).

Definition statisticsRow (repoInfo : gmap string RepoInfo.t)
    (framework : Framework.t Value) : list string :=
  let frameworkName := Framework.frameworkName framework in
  let frameworkHomepage := Framework.frameworkHomepage framework in
  let repoURL := Framework.repoURL framework in
  [ frameworkName;
    link (removeProtocol frameworkHomepage) frameworkHomepage;
    link (Js.replace "github.com/" EmptyString (removeProtocol repoURL)) repoURL;
    starsCell repoInfo repoURL;
    forksCell repoInfo repoURL;
    issuesCell repoInfo repoURL;
    licenseCell repoInfo repoURL ].

Definition statisticsHeaders : list string :=
  ["Name"; "Homepage"; "Repository"; "Stars"; "Forks"; "Issues"; "License"].

Definition frameworksSectionMarkdown (repoInfo : gmap string RepoInfo.t) : string :=
  lines [
    h2 "Framework Statistics";
    table statisticsHeaders (R.map (statisticsRow repoInfo) frameworks);
    quote ("all of the above statistics were last updated " +:+ utcNow
           +:+ ".  For real-time data, "
           +:+ link "see the website" websiteHref +:+ ".")
  ].

(** *** Framework features *)

Definition frameworkFeaturesSectionMarkdown : string :=
  lines [
    h2 "Framework Features";
    criteria (R.map (λ info, (FrameworkInfo.name info, FrameworkInfo.criteria info))
                    frameworkInfo);
    table ("Name" :: R.pluck FrameworkInfo.name frameworkInfo)
          (R.map (λ framework,
                    Framework.frameworkName framework
                    :: R.map (λ info,
                                FrameworkInfo.toMarkdown info
                                  (Framework.frameworkFeaturesById framework
                                     !! FrameworkInfo.featureId info))
                             frameworkInfo)
                 frameworks)
  ].

Definition frameworksMarkdown (repoInfo : gmap string RepoInfo.t) : string :=
  lines [
    h1 "Frameworks";
    frameworksSectionMarkdown repoInfo;
    frameworkFeaturesSectionMarkdown
  ].

(** *** Components *)

(** [pipe(values, sortBy(prop('name')))(optionsById)] *)
Definition optionsArray (info : ComponentInfo.t Value) : list (OptionInfo.t Value) :=
  R.sortBy OptionInfo.name (R.values (ComponentInfo.optionsById info)).

Definition headers (info : ComponentInfo.t Value) : list string :=
  "Framework" :: "Name" :: R.pluck OptionInfo.name (optionsArray info).

(** [{ ...component, frameworkId, frameworkName }] *)
Definition enhance (frameworkId frameworkName : string)
    (component : Component.t Value) : EnhancedComponent.t Value :=
  {| EnhancedComponent.componentId := Component.componentId component;
     EnhancedComponent.componentName := Component.componentName component;
     EnhancedComponent.componentURL := Component.componentURL component;
     EnhancedComponent.options := Component.options component;
     EnhancedComponent.frameworkId := frameworkId;
     EnhancedComponent.frameworkName := frameworkName |}.

Definition enhancedComponents : list (EnhancedComponent.t Value) :=
  R.chain (λ framework,
             R.map (enhance (Framework.frameworkId framework)
                            (Framework.frameworkName framework))
                   (Framework.components framework))
          frameworks.

(** [whereEq({ componentId })] *)
Definition whereEqComponentId (componentId : string)
    (component : EnhancedComponent.t Value) : bool :=
  String.eqb componentId (EnhancedComponent.componentId component).

Definition row (info : ComponentInfo.t Value)
    (component : EnhancedComponent.t Value) : list string :=
  EnhancedComponent.frameworkName component
  :: link (EnhancedComponent.componentName component)
          (EnhancedComponent.componentURL component)
  :: R.map (λ option,
              OptionInfo.toMarkdown option
                (EnhancedComponent.options component !! OptionInfo.optionId option))
           (optionsArray info).

Definition rows (info : ComponentInfo.t Value) : list (list string) :=
  R.map (row info)
        (R.filter (whereEqComponentId (ComponentInfo.componentId info))
                  enhancedComponents).

(** The stages of the [missingFrameworks] pipe, in order. *)

(** filter, pluck, reject: the frameworks with no component of this kind. *)
Definition missing (componentId : string) : list (Framework.t Value) :=
  let frameworkIds :=
    R.pluck EnhancedComponent.frameworkId
      (R.filter (whereEqComponentId componentId) enhancedComponents) in
  R.reject (λ framework, R.includes (Framework.frameworkId framework) frameworkIds)
           frameworks.

Definition missingLinks (componentId : string) : list string :=
  R.map (λ framework,
           link (Framework.frameworkName framework) (Framework.repoURL framework))
        (missing componentId).

(** The [switch] on [elements.length]. *)
Definition conjoin (elements : list string) : list string :=
  match length elements with
  | 0 => []
  | 1 => elements
  | 3 => R.update 1 " and " elements
  | n => R.update (Z.of_nat n - 2) ", and " elements
  end.

Definition appendSentence (info : ComponentInfo.t Value)
    (elements : list string) : list string :=
  if 0 <? length elements then
    R.append
      (" appear" +:+ (if length elements =? 1 then "s" else EmptyString)
       +:+ " to be missing " +:+ ComponentInfo.indefiniteArticle info
       +:+ " " +:+ ComponentInfo.cannonicalName info
       +:+ " component. " +:+ pleaseFileIssue
       +:+ " if one now exists." +:+ Js.nl)
      elements
  else [].

(** [line => line && line.length > 0 ? quote(line) : ''] *)
Definition quoteLine (line : option string) : string :=
  match line with
  | Some line => if Js.nonEmpty line then quote line else EmptyString
  | None => EmptyString
  end.

Definition missingFrameworks (info : ComponentInfo.t Value) : string :=
  quoteLine
    (RA.concatAll
       (appendSentence info
          (conjoin
             (R.intersperse ", "
                (missingLinks (ComponentInfo.componentId info)))))).

Definition descriptionText (description : Description) : string :=
  match description with
  | DescriptionString text => text
  | DescriptionObject markdown => markdown
  end.

(** The blocks one descriptor contributes to the Components section. *)
Definition componentSection (info : ComponentInfo.t Value) : list string :=
  [ h2 (ComponentInfo.cannonicalName info);
    p (descriptionText (ComponentInfo.description info));
    criteria (R.map (λ '(key, value),
                       (OptionInfo.name value, OptionInfo.criteria value))
                    (toStablePairs _ (ComponentInfo.optionsById info)));
    table (headers info) (rows info);
    missingFrameworks info ].

Definition componentsMarkdown : string :=
  lines (h1 "Components" :: R.chain componentSection componentInfo).

(** *** The report *)

(** [compact(await Promise.all(map(({ repoURL }) => getRepoInfo(repoURL), frameworks)))],
    indexed by [html_url]. *)
Definition fetchedRepoInfo : list (option RepoInfo.t) :=
  R.map (λ framework, getRepoInfo (Framework.repoURL framework)) frameworks.

Definition repoInfoIndex : gmap string RepoInfo.t :=
  R.indexBy RepoInfo.html_url (RA.compact fetchedRepoInfo).

Definition readme : string :=
  lines [
    headerMarkdown;
    frameworksMarkdown repoInfoIndex;
    componentsMarkdown;
    howToMakeAChange
  ].

(** [fetchAll] writes [readme] to the file [README.md]. *)
Definition fetchAll : string * string := ("README.md", readme).

End GenerateReadme.

(** ** A concrete setting for the examples *)

Module Fixture.

(** Modelled from the spec: the markdown constructors of [./utils] are not in
    this file of the repository. Section 4.1 names them (headings of level 1
    and 2, paragraph, quote, link, inline code, table, criteria bullets
    rendered as "**name**: criterionText"); section 4.2 gives the link form
    [[frameworkName](repoURL)]. No escaping is performed. *)
#[export] Instance markdown : MarkdownUtils := {|
  h1 := λ text, "# " +:+ text;
  h2 := λ text, "## " +:+ text;
  p := λ text, text;
  link := λ text href, "[" +:+ text +:+ "](" +:+ href +:+ ")";
  table := λ headers rows,
    String.concat Js.nl
      (List.map (λ cells, "| " +:+ String.concat " | " cells +:+ " |")
                (headers :: rows));
  criteria := λ pairs,
    String.concat Js.nl
      (List.map (λ '(name, text), "- **" +:+ name +:+ "**: " +:+ text) pairs);
  quote := λ text, "> " +:+ text;
  inlineCode := λ text, "`" +:+ text +:+ "`";
  website := "[https://react-ui-roundup.dimitrimitropoulos.com](https://react-ui-roundup.dimitrimitropoulos.com)";
  websiteHref := "https://react-ui-roundup.dimitrimitropoulos.com";
|}.

Definition acmeStats : RepoInfo.t :=
  {| RepoInfo.html_url := "https://github.com/acme/acme";
     RepoInfo.stargazers_count := Some 1200%Z;
     RepoInfo.forks_count := Some 34%Z;
     RepoInfo.open_issues_count := Some 5%Z;
     RepoInfo.license := Some {| License.name := Some "MIT License" |} |}.

(** The repository of Beta answers under another address than the authored
    one (a trailing slash). *)
Definition betaStats : RepoInfo.t :=
  {| RepoInfo.html_url := "https://github.com/beta/beta/";
     RepoInfo.stargazers_count := Some 77%Z;
     RepoInfo.forks_count := Some 8%Z;
     RepoInfo.open_issues_count := Some 0%Z;
     RepoInfo.license := Some {| License.name := Some "Apache License 2.0" |} |}.

(** Modelled from the spec: [removeProtocol], [getRepoInfo], [noValue],
    [toStablePairs] and [issueURL] of [../utils] are not in this file of the
    repository. Section 6: the collaborator resolves a repository URL to its
    stats or to an omitted value; section 4.3: a missing stat renders as a
    literal placeholder token such as "N/A". *)
#[export] Instance utils : Utils := {|
  removeProtocol := λ url, Js.replace "https://" EmptyString url;
  getRepoInfo := λ url,
    if String.eqb url "https://github.com/acme/acme" then Some acmeStats
    else if String.eqb url "https://github.com/beta/beta" then Some betaStats
    else None;
  noValue := "N/A";
  toStablePairs := λ A pairs, pairs;
  issueURL := "https://github.com/dimitropoulos/react-ui-roundup/issues/new";
|}.

(** A host whose locale groups no digits, at a fixed time of the run. *)
#[export] Instance host : Host := {|
  toLocaleString := λ n, NilEmpty.string_of_int (Z.to_int n);
  utcNow := "Mon, 02 Nov 2026 00:00:00 GMT";
|}.

(** Raw option values of the examples are booleans. *)
Definition yesNo (value : option bool) : string :=
  match value with
  | Some true => "Yes"
  | Some false => "No"
  | None => "N/A"
  end.

Definition dismissible : OptionInfo.t bool :=
  {| OptionInfo.optionId := "dismissible";
     OptionInfo.name := "Dismissible";
     OptionInfo.criteria := "Can the alert be closed?";
     OptionInfo.toMarkdown := yesNo |}.

Definition bordered : OptionInfo.t bool :=
  {| OptionInfo.optionId := "bordered";
     OptionInfo.name := "Bordered";
     OptionInfo.criteria := "Is there an outlined variant?";
     OptionInfo.toMarkdown := yesNo |}.

Definition alert : ComponentInfo.t bool :=
  {| ComponentInfo.componentId := "alert";
     ComponentInfo.cannonicalName := "Alert";
     ComponentInfo.description := DescriptionString "A message that needs attention.";
     ComponentInfo.indefiniteArticle := "an";
     ComponentInfo.optionsById :=
       [("dismissible", dismissible); ("bordered", bordered)] |}.

(** A descriptor without options. *)
Definition divider : ComponentInfo.t bool :=
  {| ComponentInfo.componentId := "divider";
     ComponentInfo.cannonicalName := "Divider";
     ComponentInfo.description := DescriptionObject "A *thin* line.";
     ComponentInfo.indefiniteArticle := "a";
     ComponentInfo.optionsById := [] |}.

Definition acmeAlert : Component.t bool :=
  {| Component.componentId := "alert";
     Component.componentName := "Notice";
     Component.componentURL := "https://acme.dev/notice";
     Component.options := {[ "dismissible" := true ]} |}.

(** A component whose kind is in no registry. *)
Definition acmeGizmo : Component.t bool :=
  {| Component.componentId := "gizmo";
     Component.componentName := "Gizmo";
     Component.componentURL := "https://acme.dev/gizmo";
     Component.options := ∅ |}.

Definition framework (id name : string) (components : list (Component.t bool)) :
    Framework.t bool :=
  {| Framework.frameworkId := id;
     Framework.frameworkName := name;
     Framework.frameworkHomepage := "https://" +:+ id +:+ ".dev";
     Framework.repoURL := "https://github.com/" +:+ id +:+ "/" +:+ id;
     Framework.components := components;
     Framework.frameworkFeaturesById := ∅ |}.

Definition acme := framework "acme" "Acme" [acmeAlert; acmeGizmo].
Definition beta := framework "beta" "Beta" [].
Definition gamma := framework "gamma" "Gamma" [].
Definition delta := framework "delta" "Delta" [].

Definition darkMode : FrameworkInfo.t bool :=
  {| FrameworkInfo.featureId := "darkMode";
     FrameworkInfo.name := "Dark Mode";
     FrameworkInfo.criteria := "Is a dark theme built in?";
     FrameworkInfo.toMarkdown := yesNo |}.

(** A stats index holding one repository under the address [url]. *)
Definition licensed (url name : string) : gmap string RepoInfo.t :=
  {[ url := {| RepoInfo.html_url := url;
               RepoInfo.stargazers_count := None;
               RepoInfo.forks_count := None;
               RepoInfo.open_issues_count := None;
               RepoInfo.license := Some {| License.name := Some name |} |} ]}.

(** A collaborator under which the repositories of Acme and Beta answer with
    each other's address: the fetch for the one reports the [html_url] that
    is authored for the other. *)
Definition crossed : Utils := {|
  removeProtocol := λ url, Js.replace "https://" EmptyString url;
  getRepoInfo := λ url,
    if String.eqb url "https://github.com/acme/acme" then
      Some {| RepoInfo.html_url := "https://github.com/beta/beta";
              RepoInfo.stargazers_count := Some 1200%Z;
              RepoInfo.forks_count := Some 34%Z;
              RepoInfo.open_issues_count := Some 5%Z;
              RepoInfo.license := Some {| License.name := Some "MIT License" |} |}
    else if String.eqb url "https://github.com/beta/beta" then
      Some {| RepoInfo.html_url := "https://github.com/acme/acme";
              RepoInfo.stargazers_count := Some 77%Z;
              RepoInfo.forks_count := Some 8%Z;
              RepoInfo.open_issues_count := Some 0%Z;
              RepoInfo.license := Some {| License.name := Some "ISC License" |} |}
    else None;
  noValue := "N/A";
  toStablePairs := λ A pairs, pairs;
  issueURL := "https://github.com/dimitropoulos/react-ui-roundup/issues/new";
|}.

End Fixture.

(** ** Vocabulary of the specification *)

Module Spec.

(** A framework implements a component kind when one of its components
    carries that [componentId]. *)
Definition implements {Value : Type} (componentId : string)
    (framework : Framework.t Value) : bool :=
  existsb (λ component, String.eqb componentId (Component.componentId component))
          (Framework.components framework).

(** The name without its suffix [suffix]; the name itself when it does not
    end with [suffix]. *)
Fixpoint stripSuffix (suffix s : string) : string :=
  if String.eqb suffix s then EmptyString
  else match s with
       | EmptyString => EmptyString
       | String c s' => String c (stripSuffix suffix s')
       end.

(** Two rendered blocks, separated by a blank line when neither is empty. *)
Definition above (upper lower : string) : string :=
  if Js.nonEmpty upper then
    if Js.nonEmpty lower then upper +:+ blankLine +:+ lower else upper
  else lower.

(** The concatenation of the elements of a list of strings. *)
Definition joined (elements : list string) : string :=
  foldr String.append EmptyString elements.

(** Names in ascending order: no name is followed by a smaller one. *)
Definition ascending (names : list string) : Prop :=
  Sorted (λ a b, Js.lt b a = false) names.

(** The list grammar that section 4.2 gives for three items, "A and B and C". *)
Definition threeWithoutCommas (a b c : string) : string :=
  a +:+ " and " +:+ b +:+ " and " +:+ c.

End Spec.

(** ** The arguments of the feature table, by name *)

(** The [headers] and one of the [rows] that
    [frameworkFeaturesSectionMarkdown] passes to [table]. *)
Definition frameworkFeaturesHeaders {Value : Type}
    (frameworkInfo : list (FrameworkInfo.t Value)) : list string :=
  "Name" :: R.pluck FrameworkInfo.name frameworkInfo.

Definition frameworkFeaturesRow {Value : Type}
    (frameworkInfo : list (FrameworkInfo.t Value))
    (framework : Framework.t Value) : list string :=
  Framework.frameworkName framework
  :: R.map (λ info,
              FrameworkInfo.toMarkdown info
                (Framework.frameworkFeaturesById framework
                   !! FrameworkInfo.featureId info))
           frameworkInfo.

(** * Properties *)

(** The examples are evaluated in the concrete setting. *)
#[local] Existing Instances Fixture.markdown Fixture.utils Fixture.host.

(** ** Strings *)

Lemma append_nil_r (s : string) : s +:+ EmptyString = s.
Proof. induction s as [|c s IH]; [reflexivity|]. cbv [String.append]. fold String.append. by rewrite IH. Qed.

Lemma append_assoc (a b c : string) : (a +:+ b) +:+ c = a +:+ (b +:+ c).
Proof.
  induction a as [|x a IH]; [reflexivity|].
  change (String x ((a +:+ b) +:+ c) = String x (a +:+ (b +:+ c))).
  by rewrite IH.
Qed.

Lemma nonEmpty_false (s : string) : Js.nonEmpty s = false → s = EmptyString.
Proof. by destruct s. Qed.

Lemma nonEmpty_append_l (a b : string) :
  Js.nonEmpty a = true → Js.nonEmpty (a +:+ b) = true.
Proof. by destruct a. Qed.

Lemma nonEmpty_append_r (a b : string) :
  Js.nonEmpty b = true → Js.nonEmpty (a +:+ b) = true.
Proof. destruct a; [done|reflexivity]. Qed.

Lemma foldl_append (x : string) (l : list string) :
  foldl String.append x l = x +:+ Spec.joined l.
Proof.
  revert x. induction l as [|y l IH]; intros x.
  - by rewrite append_nil_r.
  - change (foldl String.append (x +:+ y) l = x +:+ (y +:+ Spec.joined l)).
    by rewrite IH, append_assoc.
Qed.

Lemma joined_app (l1 l2 : list string) :
  Spec.joined (l1 ++ l2) = Spec.joined l1 +:+ Spec.joined l2.
Proof.
  induction l1 as [|x l1 IH]; [reflexivity|].
  change (x +:+ Spec.joined (l1 ++ l2) = (x +:+ Spec.joined l1) +:+ Spec.joined l2).
  by rewrite IH, append_assoc.
Qed.

Lemma concatAll_snoc (l : list string) (s : string) :
  RA.concatAll (R.append s l) = Some (Spec.joined l +:+ s).
Proof.
  unfold R.append. destruct l as [|x l]; simpl.
  - reflexivity.
  - rewrite foldl_append, joined_app. f_equal.
    change (Spec.joined [s]) with (s +:+ EmptyString).
    rewrite append_nil_r.
    change (Spec.joined (x :: l)) with (x +:+ Spec.joined l).
    by rewrite append_assoc.
Qed.

(** ** The list grammar of the call-out *)

Section ListGrammar.
Context {A : Type}.
Implicit Types (l : list A) (sep x : A).

Lemma length_intersperse sep l :
  length (R.intersperse sep l) = 2 * length l - 1.
Proof.
  induction l as [|x l IH]; [reflexivity|].
  destruct l as [|y l]; [reflexivity|].
  change (S (S (length (R.intersperse sep (y :: l)))) = 2 * length (x :: y :: l) - 1).
  rewrite IH. simpl. lia.
Qed.

Lemma intersperse_snoc sep l x :
  l ≠ [] → R.intersperse sep (l ++ [x]) = R.intersperse sep l ++ [sep; x].
Proof.
  induction l as [|y l IH]; [done|]. intros _.
  destruct l as [|z l]; [reflexivity|].
  change (y :: sep :: R.intersperse sep ((z :: l) ++ [x])
          = y :: sep :: R.intersperse sep (z :: l) ++ [sep; x]).
  by rewrite IH.
Qed.

Lemma length_update idx x l : length (R.update idx x l) = length l.
Proof. unfold R.update. case_match; [done|]. apply length_insert. Qed.

Lemma update_middle l1 l2 x y :
  R.update (Z.of_nat (length l1)) y (l1 ++ x :: l2) = l1 ++ y :: l2.
Proof.
  unfold R.update. rewrite length_app. simpl.
  case_match eqn:Hrange.
  { apply orb_prop in Hrange as [Hge%Z.leb_le|Hlt%Z.ltb_lt]; lia. }
  replace (Z.to_nat _) with (length l1 + 0).
  - by rewrite insert_app_r.
  - rewrite <- Z.add_mod_idemp_l, Z.mod_same, Z.add_0_l, Z.mod_small by lia. lia.
Qed.

End ListGrammar.

Lemma length_conjoin (elements : list string) :
  length (conjoin elements) = length elements.
Proof.
  unfold conjoin.
  destruct (length elements) as [|[|[|[|n]]]] eqn:Hlen;
    rewrite ?length_update; done.
Qed.

Lemma conjoin_two (a b : string) :
  conjoin (R.intersperse ", " [a; b]) = [a; " and "; b].
Proof. reflexivity. Qed.

Lemma conjoin_three (a b c : string) :
  conjoin (R.intersperse ", " [a; b; c]) = [a; ", "; b; ", and "; c].
Proof. reflexivity. Qed.

(** Three items or more: the items but the last, separated by commas, then
    [", and "] and the last item. *)
Lemma conjoin_many (l : list string) (y z : string) :
  l ≠ [] →
  conjoin (R.intersperse ", " (l ++ [y; z]))
  = R.intersperse ", " (l ++ [y]) ++ [", and "; z].
Proof.
  intros Hl.
  replace (l ++ [y; z]) with ((l ++ [y]) ++ [z]) by by rewrite <- app_assoc.
  rewrite intersperse_snoc by by destruct l.
  pose proof (length_intersperse ", " (l ++ [y])) as Hlen.
  rewrite length_app in Hlen. simpl in Hlen.
  assert (0 < length l) by (destruct l; [done|simpl; lia]).
  set (e := R.intersperse ", " (l ++ [y])) in *.
  unfold conjoin.
  destruct (length (e ++ [", "; z])) as [|[|[|[|n]]]] eqn:Hn;
    rewrite length_app in Hn; simpl in Hn; try lia.
  replace (Z.of_nat (S (S (S (S n)))) - 2)%Z with (Z.of_nat (length e)) by lia.
  apply update_middle.
Qed.

(** ** The missing-frameworks call-out *)

Section CallOut.
Context `{MarkdownUtils} `{Utils} {Value : Type}.
Implicit Types (frameworks : list (Framework.t Value)).
Implicit Types (info : ComponentInfo.t Value).

Lemma length_missingLinks frameworks componentId :
  length (missingLinks frameworks componentId)
  = length (missing frameworks componentId).
Proof. apply length_map. Qed.

(** A non-empty list of missing frameworks is rendered as one quote: the
    conjoined links followed by the sentence. *)
Lemma missingFrameworks_quote frameworks info :
  missing frameworks (ComponentInfo.componentId info) ≠ [] →
  missingFrameworks frameworks info
  = quote
      (Spec.joined
         (conjoin
            (R.intersperse ", "
               (missingLinks frameworks (ComponentInfo.componentId info))))
       +:+ " appear"
       +:+ (if length (missing frameworks (ComponentInfo.componentId info)) =? 1
            then "s" else EmptyString)
       +:+ " to be missing " +:+ ComponentInfo.indefiniteArticle info
       +:+ " " +:+ ComponentInfo.cannonicalName info
       +:+ " component. " +:+ pleaseFileIssue
       +:+ " if one now exists." +:+ Js.nl).
Proof.
  intros Hmissing. unfold missingFrameworks.
  set (elements := conjoin _).
  assert (length elements
          = 2 * length (missing frameworks (ComponentInfo.componentId info)) - 1)
    as Hlen.
  { unfold elements.
    by rewrite length_conjoin, length_intersperse, length_missingLinks. }
  assert (0 < length (missing frameworks (ComponentInfo.componentId info))).
  { destruct (missing _ _); [done|simpl; lia]. }
  unfold appendSentence.
  replace (0 <? length elements) with true by (symmetry; apply Nat.ltb_lt; lia).
  replace (length elements =? 1)
    with (length (missing frameworks (ComponentInfo.componentId info)) =? 1).
  2:{ destruct (Nat.eqb_spec (length elements) 1),
        (Nat.eqb_spec
           (length (missing frameworks (ComponentInfo.componentId info))) 1);
      try reflexivity; lia. }
  rewrite concatAll_snoc. unfold quoteLine.
  by rewrite nonEmpty_append_r.
Qed.

End CallOut.

(** C1 (amended). When exactly three frameworks are missing a component, the
    links are joined as "A, B, and C": commas between the items and
    [", and "] before the last one, the rule of the longer lists. *)
Theorem three_missing_joined_with_commas `{MarkdownUtils} `{Utils} {Value : Type}
    (frameworks : list (Framework.t Value)) (info : ComponentInfo.t Value)
    (a b c : Framework.t Value) :
  missing frameworks (ComponentInfo.componentId info) = [a; b; c] →
  missingFrameworks frameworks info
  = quote
      (link (Framework.frameworkName a) (Framework.repoURL a)
       +:+ ", " +:+ link (Framework.frameworkName b) (Framework.repoURL b)
       +:+ ", and " +:+ link (Framework.frameworkName c) (Framework.repoURL c)
       +:+ " appear to be missing " +:+ ComponentInfo.indefiniteArticle info
       +:+ " " +:+ ComponentInfo.cannonicalName info
       +:+ " component. " +:+ pleaseFileIssue
       +:+ " if one now exists." +:+ Js.nl).
Proof.
  intros Hmissing.
  rewrite missingFrameworks_quote by by rewrite Hmissing.
  unfold missingLinks. rewrite Hmissing.
  change (R.map _ [a; b; c])
    with [link (Framework.frameworkName a) (Framework.repoURL a);
          link (Framework.frameworkName b) (Framework.repoURL b);
          link (Framework.frameworkName c) (Framework.repoURL c)].
  rewrite conjoin_three.
  cbv [Spec.joined foldr length Nat.eqb].
  by rewrite !append_assoc.
Qed.

Lemma three_missing_joined_with_commas_witness :
  missing [Fixture.acme; Fixture.beta; Fixture.gamma; Fixture.delta] "alert"
  = [Fixture.beta; Fixture.gamma; Fixture.delta]
  ∧ missingFrameworks
      [Fixture.acme; Fixture.beta; Fixture.gamma; Fixture.delta] Fixture.alert
    = "> [Beta](https://github.com/beta/beta), [Gamma](https://github.com/gamma/gamma), and [Delta](https://github.com/delta/delta) appear to be missing an Alert component. [Please file an issue](https://github.com/dimitropoulos/react-ui-roundup/issues/new) if one now exists."
      +:+ Js.nl.
Proof.
  split; [reflexivity|].
  exact (three_missing_joined_with_commas
           [Fixture.acme; Fixture.beta; Fixture.gamma; Fixture.delta]
           Fixture.alert Fixture.beta Fixture.gamma Fixture.delta eq_refl).
Defined.

(** C1, as stated, fails: with Beta, Gamma and Delta missing an Alert, the
    call-out is not the one that joins the three links with [" and "]. *)
Lemma three_missing_joined_by_and_counterexample :
  length (missing [Fixture.acme; Fixture.beta; Fixture.gamma; Fixture.delta]
                  "alert") = 3
  ∧ missingFrameworks
      [Fixture.acme; Fixture.beta; Fixture.gamma; Fixture.delta] Fixture.alert
    ≠ quote
        (Spec.threeWithoutCommas
           "[Beta](https://github.com/beta/beta)"
           "[Gamma](https://github.com/gamma/gamma)"
           "[Delta](https://github.com/delta/delta)"
         +:+ " appear to be missing an Alert component. "
         +:+ pleaseFileIssue +:+ " if one now exists." +:+ Js.nl).
Proof.
  split; [reflexivity|].
  apply String.eqb_neq. vm_compute. reflexivity.
Qed.

(** C8. For a non-empty list of missing frameworks the sentence after the
    conjoined links reads " appears" when exactly one framework is missing
    and " appear" otherwise, and the article before the canonical name is
    the [indefiniteArticle] of the descriptor, whatever the name is. *)
Theorem callout_verb_and_article `{MarkdownUtils} `{Utils} {Value : Type}
    (frameworks : list (Framework.t Value)) (info : ComponentInfo.t Value) :
  missing frameworks (ComponentInfo.componentId info) ≠ [] →
  missingFrameworks frameworks info
  = quote
      (Spec.joined
         (conjoin
            (R.intersperse ", "
               (missingLinks frameworks (ComponentInfo.componentId info))))
       +:+ (if length (missing frameworks (ComponentInfo.componentId info)) =? 1
            then " appears" else " appear")
       +:+ " to be missing " +:+ ComponentInfo.indefiniteArticle info
       +:+ " " +:+ ComponentInfo.cannonicalName info
       +:+ " component. " +:+ pleaseFileIssue
       +:+ " if one now exists." +:+ Js.nl).
Proof.
  intros Hmissing. rewrite missingFrameworks_quote by done.
  by destruct (length _ =? 1).
Qed.

Lemma callout_verb_and_article_witness :
  (missing [Fixture.acme; Fixture.beta] "alert" ≠ []
   ∧ missingFrameworks [Fixture.acme; Fixture.beta] Fixture.alert
     = "> [Beta](https://github.com/beta/beta) appears to be missing an Alert component. [Please file an issue](https://github.com/dimitropoulos/react-ui-roundup/issues/new) if one now exists."
       +:+ Js.nl)
  ∧ (missing [Fixture.acme; Fixture.beta] "divider" ≠ []
     ∧ missingFrameworks [Fixture.acme; Fixture.beta] Fixture.divider
       = "> [Acme](https://github.com/acme/acme) and [Beta](https://github.com/beta/beta) appear to be missing a Divider component. [Please file an issue](https://github.com/dimitropoulos/react-ui-roundup/issues/new) if one now exists."
         +:+ Js.nl).
Proof.
  split; (split; [discriminate|]).
  - exact (callout_verb_and_article [Fixture.acme; Fixture.beta] Fixture.alert
             ltac:(discriminate)).
  - exact (callout_verb_and_article [Fixture.acme; Fixture.beta] Fixture.divider
             ltac:(discriminate)).
Defined.

(** C6. When no framework is missing the component, the pipe yields the empty
    string, not a quote, and the line joiner drops it: the section of the
    descriptor renders as its heading, description, criteria and table. *)
Theorem no_callout_when_none_missing `{MarkdownUtils} `{Utils} {Value : Type}
    (frameworks : list (Framework.t Value)) (info : ComponentInfo.t Value) :
  missing frameworks (ComponentInfo.componentId info) = [] →
  missingFrameworks frameworks info = EmptyString
  ∧ ∀ before after : list string,
      lines (before ++ componentSection frameworks info ++ after)
      = lines (before
               ++ [ h2 (ComponentInfo.cannonicalName info);
                    p (descriptionText (ComponentInfo.description info));
                    criteria
                      (R.map (λ '(key, value),
                                (OptionInfo.name value, OptionInfo.criteria value))
                             (toStablePairs _ (ComponentInfo.optionsById info)));
                    table (headers info) (rows frameworks info) ]
               ++ after).
Proof.
  intros Hmissing.
  assert (missingFrameworks frameworks info = EmptyString) as Hempty.
  { unfold missingFrameworks, missingLinks. by rewrite Hmissing. }
  split; [done|]. intros before after.
  unfold componentSection, lines. rewrite Hempty.
  by rewrite !List.filter_app.
Qed.

Lemma no_callout_when_none_missing_witness :
  missing [Fixture.acme] "alert" = []
  ∧ missingFrameworks [Fixture.acme] Fixture.alert = EmptyString.
Proof.
  split; [reflexivity|].
  exact (proj1 (no_callout_when_none_missing [Fixture.acme] Fixture.alert eq_refl)).
Defined.

(** ** The missing frameworks as a complement *)

Section Complement.
Context {Value : Type}.
Implicit Types (frameworks : list (Framework.t Value)).
Implicit Types (components : list (Component.t Value)).

(** The ids plucked from the components of one framework. *)
Lemma includes_enhanced (componentId frameworkId id name : string) components :
  R.includes frameworkId
    (R.pluck EnhancedComponent.frameworkId
       (R.filter (whereEqComponentId componentId)
          (R.map (enhance id name) components)))
  = String.eqb frameworkId id
    && existsb (λ component,
                  String.eqb componentId (Component.componentId component))
               components.
Proof.
  unfold R.includes, R.pluck, R.filter, R.map.
  induction components as [|component components IH]; simpl.
  - by rewrite andb_false_r.
  - unfold whereEqComponentId at 1. simpl.
    destruct (String.eqb componentId (Component.componentId component));
      simpl; rewrite IH; [|done].
    by destruct (String.eqb frameworkId id).
Qed.

(** A framework id is among the plucked ids exactly when a framework with
    that id implements the component. *)
Lemma includes_present (componentId frameworkId : string) frameworks :
  R.includes frameworkId
    (R.pluck EnhancedComponent.frameworkId
       (R.filter (whereEqComponentId componentId)
          (enhancedComponents frameworks)))
  = existsb (λ framework,
               String.eqb frameworkId (Framework.frameworkId framework)
               && Spec.implements componentId framework)
            frameworks.
Proof.
  induction frameworks as [|framework frameworks IH]; [reflexivity|].
  unfold enhancedComponents, R.chain. simpl.
  pose proof (includes_enhanced componentId frameworkId
                (Framework.frameworkId framework)
                (Framework.frameworkName framework)
                (Framework.components framework)) as Hhead.
  unfold R.includes, R.pluck, R.filter in *.
  rewrite List.filter_app, List.map_app, existsb_app, Hhead.
  f_equal. apply IH.
Qed.

Lemma missing_filter frameworks (componentId : string) :
  (∀ f g, In f frameworks → In g frameworks →
          Framework.frameworkId f = Framework.frameworkId g → f = g) →
  missing frameworks componentId
  = List.filter (λ f, negb (Spec.implements componentId f)) frameworks.
Proof.
  intros Hidentity. unfold missing, R.reject.
  apply List.filter_ext_in. intros f Hf. f_equal.
  rewrite includes_present.
  destruct (Spec.implements componentId f) eqn:Himplements.
  - apply existsb_exists. exists f. split; [done|].
    by rewrite String.eqb_refl, Himplements.
  - apply not_true_is_false. intros (g & Hg & Hsame)%existsb_exists.
    apply andb_prop in Hsame as [Hid%String.eqb_eq Hpresent].
    rewrite <- (Hidentity f g Hf Hg Hid) in Hpresent. congruence.
Qed.

End Complement.

(** C4. Where [frameworkId] identifies a framework of the collection, the
    missing frameworks are the frameworks that do not implement the
    component, in the order of the collection: each framework of the
    collection is missing or present, none is both. *)
Theorem missing_is_complement {Value : Type}
    (frameworks : list (Framework.t Value)) (componentId : string) :
  (∀ f g, In f frameworks → In g frameworks →
          Framework.frameworkId f = Framework.frameworkId g → f = g) →
  let present := List.filter (Spec.implements componentId) frameworks in
  missing frameworks componentId
  = List.filter (λ f, negb (Spec.implements componentId f)) frameworks
  ∧ (∀ f, In f frameworks ↔ In f (missing frameworks componentId) ∨ In f present)
  ∧ (∀ f, ¬ (In f (missing frameworks componentId) ∧ In f present)).
Proof.
  intros Hidentity present. unfold present.
  rewrite (missing_filter _ _ Hidentity).
  split; [done|]. split; intros f; rewrite !List.filter_In.
  - destruct (Spec.implements componentId f); simpl; tauto.
  - destruct (Spec.implements componentId f); simpl; intuition congruence.
Qed.

Lemma missing_is_complement_witness :
  missing [Fixture.acme; Fixture.beta; Fixture.gamma] "alert"
  = [Fixture.beta; Fixture.gamma].
Proof.
  assert (∀ f g,
            In f [Fixture.acme; Fixture.beta; Fixture.gamma] →
            In g [Fixture.acme; Fixture.beta; Fixture.gamma] →
            Framework.frameworkId f = Framework.frameworkId g → f = g)
    as Hidentity.
  { intros f g [<-|[<-|[<-|[]]]] [<-|[<-|[<-|[]]]] Hid;
      try reflexivity; vm_compute in Hid; discriminate Hid. }
  exact (proj1 (missing_is_complement
                  [Fixture.acme; Fixture.beta; Fixture.gamma] "alert"
                  Hidentity)).
Defined.

(** ** The feature matrix of a descriptor *)

Section SortBy.
Context {A : Type} (key : A → string).
Implicit Types (l : list A) (x : A).

Lemma lt_asymmetric (a b : string) : Js.lt a b = true → Js.lt b a = false.
Proof.
  unfold Js.lt, String.ltb. rewrite (String.compare_antisym b a).
  by destruct (String.compare a b).
Qed.

Lemma insertBy_Permutation x l : Permutation (R.insertBy key x l) (x :: l).
Proof.
  induction l as [|y l IH]; simpl; [done|].
  destruct (Js.lt (key y) (key x)); [|done].
  rewrite IH. apply perm_swap.
Qed.

Lemma sortBy_Permutation l : Permutation (R.sortBy key l) l.
Proof.
  induction l as [|x l IH]; simpl; [done|].
  unfold R.sortBy in *. simpl. by rewrite insertBy_Permutation, IH.
Qed.

Lemma length_sortBy l : length (R.sortBy key l) = length l.
Proof. apply Permutation_length, sortBy_Permutation. Qed.

Lemma insertBy_ascending x l :
  Spec.ascending (List.map key l) →
  Spec.ascending (List.map key (R.insertBy key x l)).
Proof.
  unfold Spec.ascending.
  induction l as [|y l IH]; simpl; intros Hsorted.
  - by repeat constructor.
  - destruct (Js.lt (key y) (key x)) eqn:Hlt; simpl.
    + apply Sorted_inv in Hsorted as [Htail Hhead].
      constructor; [by apply IH|].
      destruct l as [|z l]; simpl.
      * constructor. by apply lt_asymmetric.
      * destruct (Js.lt (key z) (key x)); simpl; constructor.
        -- by inversion Hhead.
        -- by apply lt_asymmetric.
    + constructor; [done|]. by constructor.
Qed.

Lemma sortBy_ascending l : Spec.ascending (List.map key (R.sortBy key l)).
Proof.
  induction l as [|x l IH]; [constructor|].
  by apply insertBy_ascending.
Qed.

End SortBy.

(** C2 (amended). The header row of the feature matrix is "Framework", then
    "Name", then the option names of the descriptor in ascending order; it
    has two cells more than the descriptor has options, and every body row
    is as long as the header row. *)
Theorem feature_matrix_shape `{MarkdownUtils} {Value : Type}
    (frameworks : list (Framework.t Value)) (info : ComponentInfo.t Value) :
  let names := R.pluck OptionInfo.name (optionsArray info) in
  headers info = "Framework" :: "Name" :: names
  ∧ Permutation names
      (List.map OptionInfo.name (R.values (ComponentInfo.optionsById info)))
  ∧ Spec.ascending names
  ∧ length (headers info) = 2 + length (ComponentInfo.optionsById info)
  ∧ Forall (λ cells, length cells = length (headers info)) (rows frameworks info).
Proof.
  intros names. unfold names, headers, optionsArray, R.pluck.
  split; [done|]. split; [apply Permutation_map, sortBy_Permutation|].
  split; [apply sortBy_ascending|]. split.
  - unfold R.values. simpl. by rewrite length_map, length_sortBy, length_map.
  - unfold rows, R.map. apply Forall_map, Forall_forall. intros component _.
    unfold row, R.map, optionsArray. simpl. by rewrite !length_map.
Qed.

(** C2, as stated, fails: the header row of the Alert matrix has the cell
    "Name" after "Framework", so its length is not one more than the number
    of options. *)
Lemma header_one_plus_options_counterexample :
  headers Fixture.alert = ["Framework"; "Name"; "Bordered"; "Dismissible"]
  ∧ length (ComponentInfo.optionsById Fixture.alert) = 2
  ∧ headers Fixture.alert ≠ "Framework" :: ["Bordered"; "Dismissible"]
  ∧ length (headers Fixture.alert)
    ≠ 1 + length (ComponentInfo.optionsById Fixture.alert).
Proof. repeat split; [discriminate|simpl; lia]. Qed.

(** ** The statistics table *)

(** *** Replacing the leftmost occurrence of a literal *)

Lemma append_cons (c : ascii) (s t : string) :
  String c s +:+ t = String c (s +:+ t).
Proof. reflexivity. Qed.

Lemma append_nil_l (t : string) : EmptyString +:+ t = t.
Proof. reflexivity. Qed.

Lemma replace_cons (pat rep : string) (c : ascii) (s : string) :
  Js.replace pat rep (String c s)
  = if String.prefix pat (String c s)
    then rep +:+ Js.skip (String.length pat) (String c s)
    else String c (Js.replace pat rep s).
Proof. reflexivity. Qed.

Lemma includes_cons (pat : string) (c : ascii) (s : string) :
  Js.includes pat (String c s)
  = if String.prefix pat (String c s) then true else Js.includes pat s.
Proof. reflexivity. Qed.

Lemma includes_nil (pat : string) :
  Js.includes pat EmptyString = String.prefix pat EmptyString.
Proof. unfold Js.includes. by destruct (String.prefix pat EmptyString). Qed.

Lemma includes_false_prefix (pat s : string) :
  Js.includes pat s = false → String.prefix pat s = false.
Proof.
  destruct s as [|c s]; [by rewrite includes_nil|].
  rewrite includes_cons. by destruct (String.prefix pat (String c s)).
Qed.

Lemma replace_absent (pat rep s : string) :
  Js.includes pat s = false → Js.replace pat rep s = s.
Proof.
  induction s as [|c s IH]; intros Habsent.
  - apply includes_false_prefix in Habsent.
    unfold Js.replace. by rewrite Habsent.
  - pose proof (includes_false_prefix _ _ Habsent) as Hprefix.
    rewrite includes_cons, Hprefix in Habsent.
    by rewrite replace_cons, Hprefix, IH.
Qed.

(** A prefix of [s +:+ t] is a prefix of [s] or runs over the end of [s]. *)
Lemma prefix_append_inv (pat s t : string) :
  String.prefix pat (s +:+ t) = true →
  String.prefix pat s = true
  ∨ ∃ rest, pat = s +:+ rest ∧ String.prefix rest t = true.
Proof.
  revert pat. induction s as [|c s IH]; intros pat Hprefix.
  - right. by exists pat.
  - destruct pat as [|a pat]; [by left|].
    rewrite append_cons in Hprefix. simpl in Hprefix |- *.
    destruct (ascii_dec a c) as [->|]; [|done].
    destruct (IH _ Hprefix) as [?|(rest & -> & ?)]; [by left|].
    right. by exists rest.
Qed.

(** No occurrence of [" License"] starts before the end of a string that
    holds none and yet runs into a following occurrence. *)
Lemma license_not_across (c : ascii) (s rest : string) :
  Js.includes " License" (String c s) = false →
  String.prefix " License" (String c s +:+ " License" +:+ rest) = false.
Proof.
  intros Habsent. apply not_true_is_false. intros Hprefix.
  apply prefix_append_inv in Hprefix as [Hprefix|(tail & Hsplit & Htail)].
  - apply includes_false_prefix in Habsent. congruence.
  - rewrite append_cons in Hsplit. injection Hsplit as <- Hsplit.
    repeat (destruct s as [|? s];
            [ rewrite append_nil_l in Hsplit; subst tail; discriminate
            | rewrite append_cons in Hsplit; injection Hsplit as <- Hsplit ]).
    destruct s as [|? s]; [|discriminate Hsplit].
    discriminate Habsent.
Qed.

Lemma prefix_append (pat t : string) : String.prefix pat (pat +:+ t) = true.
Proof.
  induction pat as [|c pat IH]; [by destruct t|].
  rewrite append_cons. simpl. by destruct (ascii_dec c c).
Qed.

Lemma replace_license (before after : string) :
  Js.includes " License" before = false →
  Js.replace " License" EmptyString (before +:+ " License" +:+ after)
  = before +:+ after.
Proof.
  induction before as [|c before IH]; intros Habsent.
  { rewrite !append_nil_l.
    change (" License" +:+ after) with (String " " ("License" +:+ after)) at 1.
    rewrite replace_cons.
    change (String " " ("License" +:+ after)) with (" License" +:+ after).
    by rewrite prefix_append. }
  pose proof (license_not_across c before after Habsent) as Hacross.
  rewrite (append_cons c before) in Hacross.
  rewrite !(append_cons c before), replace_cons, Hacross.
  f_equal. apply IH.
  rewrite includes_cons in Habsent.
  by destruct (String.prefix " License" (String c before)).
Qed.

(** C3 (amended). For a framework whose stats are present with a license
    name, the License cell, the last of the row, is the name with the
    leftmost occurrence of " License" removed, wherever it stands: a name
    that does not contain " License" is rendered unchanged, and a name that
    holds it once loses it there, as a suffix or inside the name. *)
Theorem license_cell_drops_first_occurrence
    `{MarkdownUtils} `{Utils} `{Host} {Value : Type}
    (repoInfo : gmap string RepoInfo.t) (framework : Framework.t Value)
    (stats : RepoInfo.t) (license : License.t) (name : string) :
  repoInfo !! Framework.repoURL framework = Some stats →
  RepoInfo.license stats = Some license →
  License.name license = Some name →
  let cell := licenseCell repoInfo (Framework.repoURL framework) in
  statisticsRow repoInfo framework !! 6 = Some cell
  ∧ cell = Js.replace " License" EmptyString name
  ∧ (Js.includes " License" name = false → cell = name)
  ∧ (∀ before after,
       name = before +:+ " License" +:+ after →
       Js.includes " License" before = false →
       cell = before +:+ after).
Proof.
  intros Hstats Hlicense Hname cell.
  assert (cell = Js.replace " License" EmptyString name) as Hcell.
  { unfold cell, licenseCell. rewrite Hstats. simpl.
    rewrite Hlicense. simpl. by rewrite Hname. }
  split; [done|]. split; [done|]. rewrite Hcell. split.
  - apply replace_absent.
  - intros before after ->. apply replace_license.
Qed.

Lemma license_cell_drops_first_occurrence_witness :
  licenseCell (Fixture.licensed "https://github.com/acme/acme" "MIT License")
              (Framework.repoURL Fixture.acme)
  = "MIT".
Proof.
  pose proof (license_cell_drops_first_occurrence
                (Fixture.licensed "https://github.com/acme/acme" "MIT License")
                Fixture.acme _ _ "MIT License" eq_refl eq_refl eq_refl)
    as (_ & _ & _ & Hsuffix).
  exact (Hsuffix "MIT" EmptyString eq_refl eq_refl).
Defined.

(** C3, as stated, fails: "Apache License 2.0" does not end with " License",
    and yet the cell is not the name. *)
Lemma license_suffix_counterexample :
  Js.endsWith " License" "Apache License 2.0" = false
  ∧ Spec.stripSuffix " License" "Apache License 2.0" = "Apache License 2.0"
  ∧ licenseCell
      (Fixture.licensed "https://github.com/acme/acme" "Apache License 2.0")
      "https://github.com/acme/acme"
    = "Apache 2.0"
  ∧ licenseCell
      (Fixture.licensed "https://github.com/acme/acme" "Apache License 2.0")
      "https://github.com/acme/acme"
    ≠ "Apache License 2.0".
Proof. repeat split; discriminate. Qed.

(** C5. For a framework whose repository URL is not a key of the stats
    index, the four statistics cells of its row are the placeholder
    [noValue]. *)
Theorem absent_stats_render_placeholder
    `{MarkdownUtils} `{Utils} `{Host} {Value : Type}
    (repoInfo : gmap string RepoInfo.t) (framework : Framework.t Value) :
  repoInfo !! Framework.repoURL framework = None →
  statisticsRow repoInfo framework
  = [ Framework.frameworkName framework;
      link (removeProtocol (Framework.frameworkHomepage framework))
           (Framework.frameworkHomepage framework);
      link (Js.replace "github.com/" EmptyString
              (removeProtocol (Framework.repoURL framework)))
           (Framework.repoURL framework);
      noValue; noValue; noValue; noValue ].
Proof.
  intros Habsent.
  unfold statisticsRow, starsCell, forksCell, issuesCell, licenseCell.
  by rewrite Habsent.
Qed.

Lemma absent_stats_render_placeholder_witness :
  repoInfoIndex [Fixture.acme; Fixture.gamma] !! Framework.repoURL Fixture.gamma
  = None
  ∧ statisticsRow (repoInfoIndex [Fixture.acme; Fixture.gamma]) Fixture.gamma
    = [ "Gamma"; "[gamma.dev](https://gamma.dev)";
        "[gamma/gamma](https://github.com/gamma/gamma)";
        "N/A"; "N/A"; "N/A"; "N/A" ].
Proof.
  split; [reflexivity|].
  exact (absent_stats_render_placeholder
           (repoInfoIndex [Fixture.acme; Fixture.gamma]) Fixture.gamma eq_refl).
Defined.

(** *** The stats index *)

Section IndexBy.
Context {A : Type} (key : A → string).
Implicit Types (l : list A) (acc : gmap string A) (k : string).

Lemma find_app (test : A → bool) l1 l2 :
  List.find test (l1 ++ l2)
  = match List.find test l1 with
    | Some x => Some x
    | None => List.find test l2
    end.
Proof.
  induction l1 as [|x l1 IH]; simpl; [done|]. by destruct (test x).
Qed.

Lemma indexBy_foldl_lookup l acc k :
  foldl (λ acc x, <[key x := x]> acc) acc l !! k
  = match List.find (λ x, String.eqb (key x) k) (rev l) with
    | Some x => Some x
    | None => acc !! k
    end.
Proof.
  revert acc. induction l as [|x l IH]; intros acc; simpl; [done|].
  rewrite IH, find_app. destruct (List.find _ (rev l)); [done|]. simpl.
  destruct (String.eqb_spec (key x) k) as [->|Hne].
  - apply lookup_insert_eq.
  - by apply lookup_insert_ne.
Qed.

(** The index holds, under a key, the last element that carries the key. *)
Lemma indexBy_lookup l k :
  R.indexBy key l !! k = List.find (λ x, String.eqb (key x) k) (rev l).
Proof.
  unfold R.indexBy. rewrite indexBy_foldl_lookup.
  by destruct (List.find _ (rev l)).
Qed.

Lemma find_key_None l k :
  Forall (λ x, key x ≠ k) l → List.find (λ x, String.eqb (key x) k) l = None.
Proof.
  induction 1 as [|x l Hne _ IH]; simpl; [done|].
  by destruct (String.eqb_spec (key x) k).
Qed.

End IndexBy.

(** C10 (amended). The stats index is keyed by the [html_url] of the fetched
    results: under a key it holds the last fetched result that reports the
    key as its [html_url], whatever URL the fetch was issued for. So the
    stats rendered for a framework are those of a fetched result whose
    [html_url] is the authored [repoURL], and a framework whose [repoURL] no
    fetched result reports renders the placeholder in the four statistics
    cells. *)
Theorem stats_indexed_by_html_url
    `{MarkdownUtils} `{Utils} `{Host} {Value : Type}
    (frameworks : list (Framework.t Value)) (framework : Framework.t Value) :
  let fetched := RA.compact (fetchedRepoInfo frameworks) in
  (∀ key,
     repoInfoIndex frameworks !! key
     = List.find (λ stats, String.eqb (RepoInfo.html_url stats) key) (rev fetched))
  ∧ (∀ stats,
       repoInfoIndex frameworks !! Framework.repoURL framework = Some stats →
       In stats fetched
       ∧ RepoInfo.html_url stats = Framework.repoURL framework)
  ∧ (Forall (λ stats, RepoInfo.html_url stats ≠ Framework.repoURL framework)
            fetched →
     statisticsRow (repoInfoIndex frameworks) framework
     = [ Framework.frameworkName framework;
         link (removeProtocol (Framework.frameworkHomepage framework))
              (Framework.frameworkHomepage framework);
         link (Js.replace "github.com/" EmptyString
                 (removeProtocol (Framework.repoURL framework)))
              (Framework.repoURL framework);
         noValue; noValue; noValue; noValue ]).
Proof.
  intros fetched.
  assert (∀ key,
            repoInfoIndex frameworks !! key
            = List.find (λ stats, String.eqb (RepoInfo.html_url stats) key)
                        (rev fetched)) as Hindex.
  { intros key. apply indexBy_lookup. }
  split; [done|]. split.
  - intros stats Hstats. rewrite Hindex in Hstats.
    apply List.find_some in Hstats as [Hin Hkey].
    split; [by apply in_rev|by apply String.eqb_eq].
  - intros Hnone.
    unfold statisticsRow, starsCell, forksCell, issuesCell, licenseCell.
    rewrite Hindex, find_key_None; [done|].
    by apply Forall_rev.
Qed.

Lemma stats_indexed_by_html_url_witness :
  Forall (λ stats, RepoInfo.html_url stats ≠ Framework.repoURL Fixture.beta)
         (RA.compact (fetchedRepoInfo [Fixture.acme; Fixture.beta]))
  ∧ getRepoInfo (Framework.repoURL Fixture.beta) = Some Fixture.betaStats
  ∧ statisticsRow (repoInfoIndex [Fixture.acme; Fixture.beta]) Fixture.beta
    = [ "Beta"; "[beta.dev](https://beta.dev)";
        "[beta/beta](https://github.com/beta/beta)";
        "N/A"; "N/A"; "N/A"; "N/A" ].
Proof.
  assert (Forall (λ stats,
                    RepoInfo.html_url stats ≠ Framework.repoURL Fixture.beta)
                 (RA.compact (fetchedRepoInfo [Fixture.acme; Fixture.beta])))
    as Hnone.
  { repeat constructor; discriminate. }
  split; [exact Hnone|]. split; [reflexivity|].
  exact (proj2 (proj2 (stats_indexed_by_html_url
                         [Fixture.acme; Fixture.beta] Fixture.beta)) Hnone).
Defined.

(** C10, as stated, fails: when the fetches for Acme and Beta report each
    other's address, the fetch for Acme succeeds with an [html_url] that
    differs from the authored [repoURL] of Acme, and the row of Acme shows
    statistics, those fetched for Beta, not the placeholder. *)
Lemma differing_html_url_counterexample :
  (∃ stats,
     getRepoInfo (Utils := Fixture.crossed) (Framework.repoURL Fixture.acme)
     = Some stats
     ∧ RepoInfo.html_url stats ≠ Framework.repoURL Fixture.acme)
  ∧ statisticsRow (utils := Fixture.crossed)
      (repoInfoIndex (utils := Fixture.crossed) [Fixture.acme; Fixture.beta])
      Fixture.acme
    = [ "Acme"; "[acme.dev](https://acme.dev)";
        "[acme/acme](https://github.com/acme/acme)";
        "77"; "8"; "0"; "ISC" ]
  ∧ statisticsRow (utils := Fixture.crossed)
      (repoInfoIndex (utils := Fixture.crossed) [Fixture.acme; Fixture.beta])
      Fixture.acme
    ≠ [ "Acme"; "[acme.dev](https://acme.dev)";
        "[acme/acme](https://github.com/acme/acme)";
        noValue (Utils := Fixture.crossed); noValue (Utils := Fixture.crossed);
        noValue (Utils := Fixture.crossed); noValue (Utils := Fixture.crossed) ].
Proof.
  split; [|split; [reflexivity|discriminate]].
  eexists. split; [reflexivity|discriminate].
Qed.

(** ** The line joiner *)

Lemma above_nil_l (lower : string) : Spec.above EmptyString lower = lower.
Proof. reflexivity. Qed.

Lemma above_nil_r (upper : string) : Spec.above upper EmptyString = upper.
Proof. unfold Spec.above. by destruct upper. Qed.

Lemma nonEmpty_above_l (upper lower : string) :
  Js.nonEmpty upper = true → Js.nonEmpty (Spec.above upper lower) = true.
Proof.
  intros Hupper. unfold Spec.above. rewrite Hupper.
  destruct (Js.nonEmpty lower); [by apply nonEmpty_append_l|done].
Qed.

Lemma above_nonEmpty (upper lower : string) :
  Js.nonEmpty upper = true → Js.nonEmpty lower = true →
  Spec.above upper lower = upper +:+ blankLine +:+ lower.
Proof. intros Hupper Hlower. unfold Spec.above. by rewrite Hupper, Hlower. Qed.

Lemma prefix_refl (s : string) : String.prefix s s = true.
Proof. rewrite <- (append_nil_r s) at 2. apply prefix_append. Qed.

Lemma prefix_above (upper lower : string) :
  Js.nonEmpty upper = true → String.prefix upper (Spec.above upper lower) = true.
Proof.
  intros Hupper. unfold Spec.above. rewrite Hupper.
  destruct (Js.nonEmpty lower); [apply prefix_append|apply prefix_refl].
Qed.

Lemma above_assoc (a b c : string) :
  Spec.above a (Spec.above b c) = Spec.above (Spec.above a b) c.
Proof.
  destruct (Js.nonEmpty a) eqn:Ha;
    [|apply nonEmpty_false in Ha as ->; by rewrite !above_nil_l].
  destruct (Js.nonEmpty b) eqn:Hb;
    [|apply nonEmpty_false in Hb as ->; by rewrite above_nil_l, above_nil_r].
  destruct (Js.nonEmpty c) eqn:Hc;
    [|apply nonEmpty_false in Hc as ->; by rewrite !above_nil_r].
  rewrite (above_nonEmpty b c), (above_nonEmpty a b) by done.
  rewrite !above_nonEmpty by auto using nonEmpty_append_l.
  by rewrite !append_assoc.
Qed.

Lemma nonEmpty_concat (sep x : string) (l : list string) :
  Js.nonEmpty x = true → Js.nonEmpty (String.concat sep (x :: l)) = true.
Proof. intros Hx. destruct l; simpl; [done|by apply nonEmpty_append_l]. Qed.

Lemma lines_cons (block : string) (blocks : list string) :
  lines (block :: blocks) = Spec.above block (lines blocks).
Proof.
  unfold lines. simpl.
  destruct (Js.nonEmpty block) eqn:Hblock;
    [|by apply nonEmpty_false in Hblock as ->].
  destruct (List.filter Js.nonEmpty blocks) as [|next rest] eqn:Hrest.
  - by rewrite above_nil_r.
  - assert (Js.nonEmpty next = true) as Hnext.
    { eapply proj2, List.filter_In. rewrite Hrest. by left. }
    rewrite above_nonEmpty by auto using nonEmpty_concat.
    reflexivity.
Qed.

Lemma lines_app (upper lower : list string) :
  lines (upper ++ lower) = Spec.above (lines upper) (lines lower).
Proof.
  induction upper as [|block upper IH]; [reflexivity|].
  simpl. by rewrite !lines_cons, IH, above_assoc.
Qed.

Lemma lines_singleton (block : string) : lines [block] = block.
Proof. rewrite lines_cons. apply above_nil_r. Qed.

(** Joining the blocks of consecutive sections joins the joined sections. *)
Lemma lines_chain {A : Type} (section : A → list string) (l : list A) :
  lines (R.chain section l) = lines (List.map (λ x, lines (section x)) l).
Proof.
  unfold R.chain. induction l as [|x l IH]; [reflexivity|].
  simpl. by rewrite lines_app, lines_cons, IH.
Qed.

(** Non-empty blocks are all kept. *)
Lemma lines_concat (blocks : list string) :
  Forall (λ block, Js.nonEmpty block = true) blocks →
  lines blocks = String.concat blankLine blocks.
Proof.
  intros Hblocks. unfold lines. f_equal.
  induction Hblocks as [|block blocks Hblock _ IH]; simpl; [done|].
  by rewrite Hblock, IH.
Qed.

(** ** The report *)

Section Report.
Context `{MarkdownUtils} `{Utils} `{Host} {Value : Type}.
Variable frameworks : list (Framework.t Value).
Variable frameworkInfo : list (FrameworkInfo.t Value).
Variable componentInfo : list (ComponentInfo.t Value).
Hypothesis h1_nonEmpty : ∀ text, Js.nonEmpty (h1 text) = true.
Hypothesis h2_nonEmpty : ∀ text, Js.nonEmpty (h2 text) = true.

Lemma nonEmpty_lines_cons (block : string) (blocks : list string) :
  Js.nonEmpty block = true → Js.nonEmpty (lines (block :: blocks)) = true.
Proof. intros Hblock. rewrite lines_cons. by apply nonEmpty_above_l. Qed.

Lemma prefix_lines_cons (block : string) (blocks : list string) :
  Js.nonEmpty block = true →
  String.prefix block (lines (block :: blocks)) = true.
Proof. intros Hblock. rewrite lines_cons. by apply prefix_above. Qed.

Lemma nonEmpty_componentSection (info : ComponentInfo.t Value) :
  Js.nonEmpty (lines (componentSection frameworks info)) = true.
Proof. apply nonEmpty_lines_cons, h2_nonEmpty. Qed.

Lemma componentsMarkdown_concat :
  componentsMarkdown frameworks componentInfo
  = String.concat blankLine
      (h1 "Components"
       :: List.map (λ info, lines (componentSection frameworks info))
                   componentInfo).
Proof.
  unfold componentsMarkdown.
  rewrite lines_cons, lines_chain, <- lines_cons.
  apply lines_concat. constructor; [apply h1_nonEmpty|].
  apply Forall_map, Forall_forall. intros info _.
  apply nonEmpty_componentSection.
Qed.

Lemma readme_concat :
  readme frameworks frameworkInfo componentInfo
  = headerMarkdown
    +:+ blankLine
    +:+ frameworksMarkdown frameworks frameworkInfo (repoInfoIndex frameworks)
    +:+ blankLine +:+ componentsMarkdown frameworks componentInfo
    +:+ blankLine +:+ howToMakeAChange.
Proof.
  unfold readme. apply lines_concat.
  repeat constructor; by apply nonEmpty_lines_cons.
Qed.

Lemma frameworksMarkdown_concat (repoInfo : gmap string RepoInfo.t) :
  frameworksMarkdown frameworks frameworkInfo repoInfo
  = h1 "Frameworks"
    +:+ blankLine +:+ frameworksSectionMarkdown frameworks repoInfo
    +:+ blankLine +:+ frameworkFeaturesSectionMarkdown frameworks frameworkInfo.
Proof.
  unfold frameworksMarkdown. apply lines_concat.
  repeat constructor; [done|by apply nonEmpty_lines_cons..].
Qed.

End Report.

(** C9. With headings that never render as the empty string, the report is
    one text: the header, the Frameworks section, the Components section and
    the "How to Make a Change" footer, in this order and a blank line apart.
    The Frameworks section is its heading, the statistics and then the
    features; the Components section is its heading and then one subsection
    per descriptor, in registry order, each opening with the heading of the
    descriptor. *)
Theorem report_sections_in_order `{MarkdownUtils} `{Utils} `{Host} {Value : Type}
    (frameworks : list (Framework.t Value))
    (frameworkInfo : list (FrameworkInfo.t Value))
    (componentInfo : list (ComponentInfo.t Value)) :
  (∀ text, Js.nonEmpty (h1 text) = true) →
  (∀ text, Js.nonEmpty (h2 text) = true) →
  let repoInfo := repoInfoIndex frameworks in
  fetchAll frameworks frameworkInfo componentInfo
  = ( "README.md",
      headerMarkdown
      +:+ blankLine +:+ frameworksMarkdown frameworks frameworkInfo repoInfo
      +:+ blankLine +:+ componentsMarkdown frameworks componentInfo
      +:+ blankLine +:+ howToMakeAChange )
  ∧ String.prefix (h1 "React UI Roundup") headerMarkdown = true
  ∧ frameworksMarkdown frameworks frameworkInfo repoInfo
    = h1 "Frameworks"
      +:+ blankLine +:+ frameworksSectionMarkdown frameworks repoInfo
      +:+ blankLine +:+ frameworkFeaturesSectionMarkdown frameworks frameworkInfo
  ∧ String.prefix (h2 "Framework Statistics")
      (frameworksSectionMarkdown frameworks repoInfo) = true
  ∧ String.prefix (h2 "Framework Features")
      (frameworkFeaturesSectionMarkdown frameworks frameworkInfo) = true
  ∧ componentsMarkdown frameworks componentInfo
    = String.concat blankLine
        (h1 "Components"
         :: List.map (λ info, lines (componentSection frameworks info))
                     componentInfo)
  ∧ Forall (λ info,
              String.prefix (h2 (ComponentInfo.cannonicalName info))
                (lines (componentSection frameworks info)) = true)
           componentInfo
  ∧ String.prefix (h1 "How to Make a Change") howToMakeAChange = true.
Proof.
  intros Hh1 Hh2 repoInfo.
  split; [unfold fetchAll; f_equal; by apply readme_concat|].
  split; [by apply prefix_lines_cons|].
  split; [by apply frameworksMarkdown_concat|].
  split; [by apply prefix_lines_cons|].
  split; [by apply prefix_lines_cons|].
  split; [by apply componentsMarkdown_concat|].
  split; [|by apply prefix_lines_cons].
  apply Forall_forall. intros info _. by apply prefix_lines_cons.
Qed.

Lemma report_sections_in_order_witness :
  fetchAll [Fixture.acme; Fixture.beta] [Fixture.darkMode]
           [Fixture.alert; Fixture.divider]
  = ( "README.md",
      headerMarkdown
      +:+ blankLine
      +:+ frameworksMarkdown [Fixture.acme; Fixture.beta] [Fixture.darkMode]
            (repoInfoIndex [Fixture.acme; Fixture.beta])
      +:+ blankLine
      +:+ componentsMarkdown [Fixture.acme; Fixture.beta]
            [Fixture.alert; Fixture.divider]
      +:+ blankLine +:+ howToMakeAChange ).
Proof.
  exact (proj1 (report_sections_in_order
                  [Fixture.acme; Fixture.beta] [Fixture.darkMode]
                  [Fixture.alert; Fixture.divider]
                  (λ _, eq_refl) (λ _, eq_refl))).
Defined.

(** ** Components of an unregistered kind *)

Section Unregistered.
Context `{MarkdownUtils} `{Utils} `{Host} {Value : Type}.
Variables (before after : list (Framework.t Value)).
Variables (id name homepage repo : string).
Variables (features : gmap string Value).
Variables (earlier later : list (Component.t Value)).
Variable stray : Component.t Value.

(** The collection with the stray component, and the collection without. *)
Local Abbreviation withStray :=
  (before
   ++ Framework.mk id name homepage repo (earlier ++ stray :: later) features
   :: after).
Local Abbreviation withoutStray :=
  (before ++ Framework.mk id name homepage repo (earlier ++ later) features
   :: after).

Lemma filter_enhancedComponents_stray (componentId : string) :
  componentId ≠ Component.componentId stray →
  R.filter (whereEqComponentId componentId) (enhancedComponents withStray)
  = R.filter (whereEqComponentId componentId) (enhancedComponents withoutStray).
Proof.
  intros Hne%String.eqb_neq.
  unfold enhancedComponents, R.chain, R.filter, R.map.
  rewrite !flat_map_app. simpl.
  rewrite !List.map_app, !List.filter_app. simpl.
  unfold whereEqComponentId at 3. simpl. by rewrite Hne.
Qed.

Lemma rows_stray (info : ComponentInfo.t Value) :
  ComponentInfo.componentId info ≠ Component.componentId stray →
  rows withStray info = rows withoutStray info.
Proof.
  intros Hne. unfold rows. by rewrite filter_enhancedComponents_stray.
Qed.

Lemma missingLinks_stray (componentId : string) :
  componentId ≠ Component.componentId stray →
  missingLinks withStray componentId = missingLinks withoutStray componentId.
Proof.
  intros Hne. unfold missingLinks, missing.
  rewrite filter_enhancedComponents_stray by done.
  unfold R.reject, R.map.
  rewrite !List.filter_app, !List.map_app. f_equal. simpl.
  by destruct (negb _).
Qed.

Lemma componentSection_stray (info : ComponentInfo.t Value) :
  ComponentInfo.componentId info ≠ Component.componentId stray →
  componentSection withStray info = componentSection withoutStray info.
Proof.
  intros Hne. unfold componentSection, missingFrameworks.
  by rewrite rows_stray, missingLinks_stray.
Qed.

Lemma flat_map_ext_in {A B : Type} (f g : A → list B) (l : list A) :
  (∀ x, In x l → f x = g x) → flat_map f l = flat_map g l.
Proof.
  induction l as [|x l IH]; intros Hext; simpl; [done|].
  rewrite (Hext x) by by left. f_equal. apply IH. intros y Hy. apply Hext. by right.
Qed.

Lemma readme_stray (frameworkInfo : list (FrameworkInfo.t Value))
    (componentInfo : list (ComponentInfo.t Value)) :
  ¬ In (Component.componentId stray)
       (R.pluck ComponentInfo.componentId componentInfo) →
  readme withStray frameworkInfo componentInfo
  = readme withoutStray frameworkInfo componentInfo.
Proof.
  intros Hstray. unfold readme.
  assert (frameworksMarkdown withStray frameworkInfo (repoInfoIndex withStray)
          = frameworksMarkdown withoutStray frameworkInfo
              (repoInfoIndex withoutStray)) as ->.
  { unfold frameworksMarkdown, frameworksSectionMarkdown,
      frameworkFeaturesSectionMarkdown, repoInfoIndex, fetchedRepoInfo, R.map.
    by rewrite !List.map_app. }
  assert (componentsMarkdown withStray componentInfo
          = componentsMarkdown withoutStray componentInfo) as ->; [|done].
  unfold componentsMarkdown, R.chain. do 2 f_equal.
  apply flat_map_ext_in. intros info Hinfo.
  apply componentSection_stray. intros Hsame. apply Hstray.
  rewrite <- Hsame. by apply in_map.
Qed.

End Unregistered.

(** C7. A component whose [componentId] is the id of no descriptor of the
    registry leaves the rendering as it is without the component: it adds a
    row to the table of no descriptor, and the report is the report of the
    collection without it. The generator is a total function of its input. *)
Theorem unregistered_component_is_dropped
    `{MarkdownUtils} `{Utils} `{Host} {Value : Type}
    (frameworkInfo : list (FrameworkInfo.t Value))
    (componentInfo : list (ComponentInfo.t Value))
    (before after : list (Framework.t Value))
    (id name homepage repo : string) (features : gmap string Value)
    (earlier later : list (Component.t Value)) (stray : Component.t Value) :
  ¬ In (Component.componentId stray)
       (R.pluck ComponentInfo.componentId componentInfo) →
  let withStray :=
    before
    ++ Framework.mk id name homepage repo (earlier ++ stray :: later) features
    :: after in
  let withoutStray :=
    before ++ Framework.mk id name homepage repo (earlier ++ later) features
    :: after in
  Forall (λ info, rows withStray info = rows withoutStray info) componentInfo
  ∧ Forall (λ info,
              missingFrameworks withStray info = missingFrameworks withoutStray info)
           componentInfo
  ∧ readme withStray frameworkInfo componentInfo
    = readme withoutStray frameworkInfo componentInfo.
Proof.
  intros Hstray withStray withoutStray.
  assert (∀ info, In info componentInfo →
            ComponentInfo.componentId info ≠ Component.componentId stray)
    as Hne.
  { intros info Hinfo Hsame. apply Hstray. rewrite <- Hsame. by apply in_map. }
  split; [|split].
  - apply Forall_forall. intros info Hinfo%list_elem_of_In.
    by apply rows_stray, Hne.
  - apply Forall_forall. intros info Hinfo%list_elem_of_In.
    unfold missingFrameworks, withStray, withoutStray.
    rewrite missingLinks_stray; [done|by apply Hne].
  - by apply readme_stray.
Qed.

Lemma unregistered_component_is_dropped_witness :
  ¬ In "gizmo"
       (R.pluck ComponentInfo.componentId [Fixture.alert; Fixture.divider])
  ∧ readme [Fixture.acme; Fixture.beta] [Fixture.darkMode]
           [Fixture.alert; Fixture.divider]
    = readme [Fixture.framework "acme" "Acme" [Fixture.acmeAlert]; Fixture.beta]
             [Fixture.darkMode] [Fixture.alert; Fixture.divider].
Proof.
  assert (¬ In (Component.componentId Fixture.acmeGizmo)
               (R.pluck ComponentInfo.componentId
                        [Fixture.alert; Fixture.divider])) as Hstray.
  { intros [Hin|[Hin|[]]]; discriminate Hin. }
  split; [exact Hstray|].
  exact (proj2 (proj2 (unregistered_component_is_dropped
                         [Fixture.darkMode] [Fixture.alert; Fixture.divider]
                         [] [Fixture.beta] "acme" "Acme"
                         "https://acme.dev" "https://github.com/acme/acme" ∅
                         [Fixture.acmeAlert] [] Fixture.acmeGizmo Hstray))).
Defined.

(** * Further properties of the generator *)

(** ** The list grammar, case by case *)

Lemma joined_intersperse (sep : string) (l : list string) :
  Spec.joined (R.intersperse sep l) = String.concat sep l.
Proof.
  induction l as [|x l IH]; [reflexivity|].
  destruct l as [|y l]; [apply append_nil_r|].
  change (x +:+ sep +:+ Spec.joined (R.intersperse sep (y :: l))
          = x +:+ sep +:+ String.concat sep (y :: l)).
  by rewrite IH.
Qed.

Section Grammar.
Context `{MarkdownUtils} `{Utils} {Value : Type}.
Implicit Types (frameworks : list (Framework.t Value)).
Implicit Types (info : ComponentInfo.t Value).

(** The sentence that follows the links, for one and for several missing
    frameworks. *)
Lemma missingFrameworks_links frameworks info (links : list string) :
  missing frameworks (ComponentInfo.componentId info) ≠ [] →
  conjoin
    (R.intersperse ", " (missingLinks frameworks (ComponentInfo.componentId info)))
  = links →
  missingFrameworks frameworks info
  = quote
      (Spec.joined links
       +:+ (if length (missing frameworks (ComponentInfo.componentId info)) =? 1
            then " appears" else " appear")
       +:+ " to be missing " +:+ ComponentInfo.indefiniteArticle info
       +:+ " " +:+ ComponentInfo.cannonicalName info
       +:+ " component. " +:+ pleaseFileIssue
       +:+ " if one now exists." +:+ Js.nl).
Proof.
  intros Hmissing <-. rewrite missingFrameworks_quote by done.
  by destruct (length _ =? 1).
Qed.

End Grammar.

(** X1. When exactly one framework is missing a component, the call-out is
    the link of that framework followed by " appears to be missing ...". *)
Theorem one_missing_alone `{MarkdownUtils} `{Utils} {Value : Type}
    (frameworks : list (Framework.t Value)) (info : ComponentInfo.t Value)
    (a : Framework.t Value) :
  missing frameworks (ComponentInfo.componentId info) = [a] →
  missingFrameworks frameworks info
  = quote
      (link (Framework.frameworkName a) (Framework.repoURL a)
       +:+ " appears to be missing " +:+ ComponentInfo.indefiniteArticle info
       +:+ " " +:+ ComponentInfo.cannonicalName info
       +:+ " component. " +:+ pleaseFileIssue
       +:+ " if one now exists." +:+ Js.nl).
Proof.
  intros Hmissing.
  rewrite (missingFrameworks_links frameworks info
             [link (Framework.frameworkName a) (Framework.repoURL a)]).
  - rewrite Hmissing. cbv [Spec.joined foldr length Nat.eqb].
    by rewrite !append_assoc.
  - by rewrite Hmissing.
  - unfold missingLinks. by rewrite Hmissing.
Qed.

Lemma one_missing_alone_witness :
  missing [Fixture.acme; Fixture.beta] "alert" = [Fixture.beta]
  ∧ missingFrameworks [Fixture.acme; Fixture.beta] Fixture.alert
    = "> [Beta](https://github.com/beta/beta) appears to be missing an Alert component. [Please file an issue](https://github.com/dimitropoulos/react-ui-roundup/issues/new) if one now exists."
      +:+ Js.nl.
Proof.
  split; [reflexivity|].
  exact (one_missing_alone [Fixture.acme; Fixture.beta] Fixture.alert
           Fixture.beta eq_refl).
Defined.

(** X2. When exactly two frameworks are missing a component, their links are
    joined by " and ", without a comma, and the verb is " appear". *)
Theorem two_missing_joined_by_and `{MarkdownUtils} `{Utils} {Value : Type}
    (frameworks : list (Framework.t Value)) (info : ComponentInfo.t Value)
    (a b : Framework.t Value) :
  missing frameworks (ComponentInfo.componentId info) = [a; b] →
  missingFrameworks frameworks info
  = quote
      (link (Framework.frameworkName a) (Framework.repoURL a)
       +:+ " and " +:+ link (Framework.frameworkName b) (Framework.repoURL b)
       +:+ " appear to be missing " +:+ ComponentInfo.indefiniteArticle info
       +:+ " " +:+ ComponentInfo.cannonicalName info
       +:+ " component. " +:+ pleaseFileIssue
       +:+ " if one now exists." +:+ Js.nl).
Proof.
  intros Hmissing.
  rewrite (missingFrameworks_links frameworks info
             [link (Framework.frameworkName a) (Framework.repoURL a);
              " and ";
              link (Framework.frameworkName b) (Framework.repoURL b)]).
  - rewrite Hmissing. cbv [Spec.joined foldr length Nat.eqb].
    by rewrite !append_assoc.
  - by rewrite Hmissing.
  - unfold missingLinks. by rewrite Hmissing.
Qed.

Lemma two_missing_joined_by_and_witness :
  missing [Fixture.acme; Fixture.beta; Fixture.gamma] "alert"
  = [Fixture.beta; Fixture.gamma]
  ∧ missingFrameworks [Fixture.acme; Fixture.beta; Fixture.gamma] Fixture.alert
    = "> [Beta](https://github.com/beta/beta) and [Gamma](https://github.com/gamma/gamma) appear to be missing an Alert component. [Please file an issue](https://github.com/dimitropoulos/react-ui-roundup/issues/new) if one now exists."
      +:+ Js.nl.
Proof.
  split; [reflexivity|].
  exact (two_missing_joined_by_and [Fixture.acme; Fixture.beta; Fixture.gamma]
           Fixture.alert Fixture.beta Fixture.gamma eq_refl).
Defined.

(** X3. When three or more frameworks are missing a component, the links but
    the last are separated by ", ", the last link follows ", and ", and the
    verb is " appear". *)
Theorem many_missing_comma_joined `{MarkdownUtils} `{Utils} {Value : Type}
    (frameworks : list (Framework.t Value)) (info : ComponentInfo.t Value)
    (first : list (Framework.t Value)) (y z : Framework.t Value) :
  first ≠ [] →
  missing frameworks (ComponentInfo.componentId info) = first ++ [y; z] →
  missingFrameworks frameworks info
  = quote
      (String.concat ", "
         (List.map (λ framework,
                      link (Framework.frameworkName framework)
                           (Framework.repoURL framework))
                   (first ++ [y]))
       +:+ ", and " +:+ link (Framework.frameworkName z) (Framework.repoURL z)
       +:+ " appear to be missing " +:+ ComponentInfo.indefiniteArticle info
       +:+ " " +:+ ComponentInfo.cannonicalName info
       +:+ " component. " +:+ pleaseFileIssue
       +:+ " if one now exists." +:+ Js.nl).
Proof.
  intros Hfirst Hmissing.
  set (linkOf := λ framework : Framework.t Value,
         link (Framework.frameworkName framework) (Framework.repoURL framework)).
  rewrite (missingFrameworks_links frameworks info
             (R.intersperse ", " (List.map linkOf (first ++ [y]))
              ++ [", and "; linkOf z])).
  - rewrite Hmissing, joined_app, joined_intersperse.
    replace (length (first ++ [y; z]) =? 1) with false.
    + cbv [Spec.joined foldr]. by rewrite !append_assoc.
    + symmetry. apply Nat.eqb_neq. rewrite length_app. simpl. lia.
  - rewrite Hmissing. by destruct first.
  - unfold missingLinks, R.map. rewrite Hmissing, !List.map_app.
    apply (conjoin_many (List.map linkOf first) (linkOf y) (linkOf z)).
    by destruct first.
Qed.

Lemma many_missing_comma_joined_witness :
  missing [Fixture.beta; Fixture.acme; Fixture.gamma; Fixture.delta;
           Fixture.framework "epsilon" "Epsilon" []] "alert"
  = [Fixture.beta; Fixture.gamma] ++ [Fixture.delta;
                                      Fixture.framework "epsilon" "Epsilon" []]
  ∧ missingFrameworks
      [Fixture.beta; Fixture.acme; Fixture.gamma; Fixture.delta;
       Fixture.framework "epsilon" "Epsilon" []] Fixture.alert
    = "> [Beta](https://github.com/beta/beta), [Gamma](https://github.com/gamma/gamma), [Delta](https://github.com/delta/delta), and [Epsilon](https://github.com/epsilon/epsilon) appear to be missing an Alert component. [Please file an issue](https://github.com/dimitropoulos/react-ui-roundup/issues/new) if one now exists."
      +:+ Js.nl.
Proof.
  split; [reflexivity|].
  exact (many_missing_comma_joined
           [Fixture.beta; Fixture.acme; Fixture.gamma; Fixture.delta;
            Fixture.framework "epsilon" "Epsilon" []]
           Fixture.alert [Fixture.beta; Fixture.gamma] Fixture.delta
           (Fixture.framework "epsilon" "Epsilon" [])
           ltac:(discriminate) eq_refl).
Defined.

(** ** The missing frameworks, by [frameworkId] *)

Lemma existsb_false_Forall {A : Type} (test : A → bool) (l : list A) :
  existsb test l = false ↔ Forall (λ x, test x = false) l.
Proof.
  induction l as [|x l IH]; simpl.
  - split; [constructor|done].
  - rewrite orb_false_iff, IH. split.
    + intros [? ?]. by constructor.
    + intros Hall. by inversion Hall.
Qed.

Lemma filter_sublist {A : Type} (test : A → bool) (l : list A) :
  sublist (List.filter test l) l.
Proof.
  induction l as [|x l IH]; simpl; [constructor|].
  destruct (test x); by constructor.
Qed.

(** X4. Whatever the collection, a framework is reported missing exactly
    when it is in the collection and no framework of the collection with its
    [frameworkId] has a component of the kind; the missing frameworks keep
    the order of the collection, and none of them implements the kind. *)
Theorem missing_by_frameworkId {Value : Type}
    (frameworks : list (Framework.t Value)) (componentId : string) :
  (∀ f,
     In f (missing frameworks componentId)
     ↔ In f frameworks
       ∧ Forall (λ g,
                   Framework.frameworkId g = Framework.frameworkId f →
                   Spec.implements componentId g = false)
                frameworks)
  ∧ sublist (missing frameworks componentId) frameworks
  ∧ Forall (λ f, Spec.implements componentId f = false)
           (missing frameworks componentId).
Proof.
  assert (∀ f,
            In f (missing frameworks componentId)
            ↔ In f frameworks
              ∧ Forall (λ g,
                          Framework.frameworkId g = Framework.frameworkId f →
                          Spec.implements componentId g = false)
                       frameworks) as Hmissing.
  { intros f. unfold missing, R.reject.
    rewrite List.filter_In, includes_present, negb_true_iff, existsb_false_Forall.
    apply and_iff_compat_l. apply Forall_iff. intros g.
    destruct (String.eqb_spec (Framework.frameworkId f) (Framework.frameworkId g))
      as [Hsame|Hother]; simpl.
    - split; [auto|]. intros Himplements. by apply Himplements.
    - split; [|done]. intros _ Hsame. by destruct Hother. }
  split; [done|]. split; [apply filter_sublist|].
  apply Forall_forall. intros f [Hf Hnone]%list_elem_of_In%Hmissing.
  by apply (proj1 (Forall_forall _ _) Hnone f); [apply list_elem_of_In|].
Qed.

(** ** The rows of a feature matrix *)

Lemma lookup_map {A B : Type} (f : A → B) (l : list A) (i : nat) :
  List.map f l !! i = f <$> l !! i.
Proof.
  revert i. induction l as [|x l IH]; intros [|i]; simpl; done.
Qed.

Section Rows.
Context `{MarkdownUtils} {Value : Type}.
Implicit Types (frameworks : list (Framework.t Value)).
Implicit Types (info : ComponentInfo.t Value).

Lemma rows_of_one_framework info (id name : string)
    (components : list (Component.t Value)) :
  R.map (row info)
    (R.filter (whereEqComponentId (ComponentInfo.componentId info))
       (R.map (enhance id name) components))
  = List.map (λ component,
                name
                :: link (Component.componentName component)
                        (Component.componentURL component)
                :: List.map (λ option,
                               OptionInfo.toMarkdown option
                                 (Component.options component
                                    !! OptionInfo.optionId option))
                            (optionsArray info))
      (List.filter (λ component,
                      String.eqb (ComponentInfo.componentId info)
                                 (Component.componentId component))
                   components).
Proof.
  unfold R.map, R.filter.
  induction components as [|component components IH]; simpl; [done|].
  unfold whereEqComponentId at 1. simpl.
  destruct (String.eqb _ _); simpl; by rewrite IH.
Qed.

End Rows.

(** X5. The body rows of a descriptor's matrix are, framework by framework in
    collection order, one row for each component of the framework that
    carries the descriptor's [componentId], in the order of the framework's
    components: the framework name, the link to the component and the option
    cells. *)
Theorem rows_by_framework `{MarkdownUtils} {Value : Type}
    (frameworks : list (Framework.t Value)) (info : ComponentInfo.t Value) :
  rows frameworks info
  = flat_map
      (λ framework,
         List.map (λ component,
                     Framework.frameworkName framework
                     :: link (Component.componentName component)
                             (Component.componentURL component)
                     :: List.map (λ option,
                                    OptionInfo.toMarkdown option
                                      (Component.options component
                                         !! OptionInfo.optionId option))
                                 (optionsArray info))
           (List.filter (λ component,
                           String.eqb (ComponentInfo.componentId info)
                                      (Component.componentId component))
                        (Framework.components framework)))
      frameworks.
Proof.
  unfold rows, enhancedComponents, R.chain.
  induction frameworks as [|framework frameworks IH]; [reflexivity|].
  simpl.
  pose proof (rows_of_one_framework info (Framework.frameworkId framework)
                (Framework.frameworkName framework)
                (Framework.components framework)) as Hone.
  unfold R.map, R.filter in *.
  by rewrite List.filter_app, List.map_app, Hone, IH.
Qed.

(** X6. The cells of a body row stand under their headers: the cell at the
    position of an option's name in the header row is that option's
    [toMarkdown] of the component's value for the option, [undefined] when
    the component records none. *)
Theorem row_cells_under_headers `{MarkdownUtils} {Value : Type}
    (info : ComponentInfo.t Value) (component : EnhancedComponent.t Value)
    (i : nat) (option : OptionInfo.t Value) :
  optionsArray info !! i = Some option →
  headers info !! (2 + i) = Some (OptionInfo.name option)
  ∧ row info component !! (2 + i)
    = Some (OptionInfo.toMarkdown option
              (EnhancedComponent.options component
                 !! OptionInfo.optionId option)).
Proof.
  intros Hoption. unfold headers, row, R.pluck, R.map. simpl.
  by rewrite !lookup_map, Hoption.
Qed.

Lemma row_cells_under_headers_witness :
  headers Fixture.alert !! 3 = Some "Dismissible"
  ∧ row Fixture.alert
        (enhance "acme" "Acme" Fixture.acmeAlert) !! 3 = Some "Yes".
Proof.
  exact (row_cells_under_headers Fixture.alert
           (enhance "acme" "Acme" Fixture.acmeAlert) 1 Fixture.dismissible
           eq_refl).
Defined.

(** ** The order of the option columns *)

Section Stable.
Context {A : Type} (key : A → string).
Implicit Types (l : list A) (x : A) (k : string).

Lemma filter_insertBy x l k :
  List.filter (λ y, String.eqb (key y) k) (R.insertBy key x l)
  = List.filter (λ y, String.eqb (key y) k) (x :: l).
Proof.
  induction l as [|y l IH]; [reflexivity|].
  simpl R.insertBy. destruct (Js.lt (key y) (key x)) eqn:Hlt; [|reflexivity].
  change (List.filter ?f (y :: ?t))
    with (if f y then y :: List.filter f t else List.filter f t).
  rewrite IH. simpl.
  destruct (String.eqb_spec (key y) k) as [Hy|_],
           (String.eqb_spec (key x) k) as [Hx|_]; try reflexivity.
  rewrite Hy, <- Hx in Hlt.
  pose proof (lt_asymmetric _ _ Hlt). congruence.
Qed.

Lemma filter_sortBy l k :
  List.filter (λ y, String.eqb (key y) k) (R.sortBy key l)
  = List.filter (λ y, String.eqb (key y) k) l.
Proof.
  induction l as [|x l IH]; [reflexivity|].
  change (R.sortBy key (x :: l)) with (R.insertBy key x (R.sortBy key l)).
  rewrite filter_insertBy. simpl. by rewrite IH.
Qed.

Lemma sortBy_ascending_id l :
  Spec.ascending (List.map key l) → R.sortBy key l = l.
Proof.
  unfold Spec.ascending.
  induction l as [|x l IH]; [reflexivity|]. intros Hsorted.
  apply Sorted_inv in Hsorted as [Htail Hhead].
  change (R.sortBy key (x :: l)) with (R.insertBy key x (R.sortBy key l)).
  rewrite IH by done. destruct l as [|y l]; [reflexivity|].
  simpl in *. apply HdRel_inv in Hhead. by rewrite Hhead.
Qed.

End Stable.

(** X7. The option columns are ordered by a stable sort: the options that
    share a name stand in the matrix in the order in which the descriptor
    enumerates them. *)
Theorem options_with_one_name_keep_order {Value : Type}
    (info : ComponentInfo.t Value) (name : string) :
  List.filter (λ option, String.eqb (OptionInfo.name option) name)
              (optionsArray info)
  = List.filter (λ option, String.eqb (OptionInfo.name option) name)
                (R.values (ComponentInfo.optionsById info)).
Proof. apply filter_sortBy. Qed.

(** X8. A descriptor whose options are enumerated with their names already
    in ascending order keeps that order in the matrix. *)
Theorem ascending_options_keep_order {Value : Type}
    (info : ComponentInfo.t Value) :
  Spec.ascending
    (List.map OptionInfo.name (R.values (ComponentInfo.optionsById info))) →
  optionsArray info = R.values (ComponentInfo.optionsById info).
Proof. apply sortBy_ascending_id. Qed.

Lemma ascending_options_keep_order_witness :
  optionsArray
    {| ComponentInfo.componentId := "alert";
       ComponentInfo.cannonicalName := "Alert";
       ComponentInfo.description := DescriptionString "A message.";
       ComponentInfo.indefiniteArticle := "an";
       ComponentInfo.optionsById :=
         [("bordered", Fixture.bordered); ("dismissible", Fixture.dismissible)] |}
  = [Fixture.bordered; Fixture.dismissible].
Proof.
  apply (ascending_options_keep_order
           {| ComponentInfo.componentId := "alert";
              ComponentInfo.cannonicalName := "Alert";
              ComponentInfo.description := DescriptionString "A message.";
              ComponentInfo.indefiniteArticle := "an";
              ComponentInfo.optionsById :=
                [("bordered", Fixture.bordered);
                 ("dismissible", Fixture.dismissible)] |}).
  repeat constructor.
Defined.

(** ** Which fetched result a row shows *)

Lemma compact_app {A : Type} (l1 l2 : list (option A)) :
  RA.compact (l1 ++ l2) = RA.compact l1 ++ RA.compact l2.
Proof.
  apply omap_app.
Qed.

Section Fetched.
Context `{Utils} {Value : Type}.
Implicit Types (frameworks : list (Framework.t Value)).

Lemma fetchedRepoInfo_app frameworks1 frameworks2 :
  fetchedRepoInfo (frameworks1 ++ frameworks2)
  = fetchedRepoInfo frameworks1 ++ fetchedRepoInfo frameworks2.
Proof. apply List.map_app. Qed.

Lemma fetched_not_reporting frameworks (key : string) :
  Forall (λ framework,
            ∀ stats, getRepoInfo (Framework.repoURL framework) = Some stats →
                     RepoInfo.html_url stats ≠ key)
         frameworks →
  Forall (λ stats, RepoInfo.html_url stats ≠ key)
         (RA.compact (fetchedRepoInfo frameworks)).
Proof.
  induction 1 as [|framework frameworks Hframework _ IH]; [constructor|].
  unfold fetchedRepoInfo, RA.compact, R.map in *. simpl.
  destruct (getRepoInfo (Framework.repoURL framework)) as [stats|] eqn:Hfetch;
    simpl; [|done].
  constructor; [by apply Hframework|done].
Qed.

Lemma repoInfoIndex_last earlier later (framework : Framework.t Value)
    (stats : RepoInfo.t) :
  getRepoInfo (Framework.repoURL framework) = Some stats →
  Forall (λ other,
            ∀ stats', getRepoInfo (Framework.repoURL other) = Some stats' →
                      RepoInfo.html_url stats' ≠ RepoInfo.html_url stats)
         later →
  repoInfoIndex (earlier ++ framework :: later) !! RepoInfo.html_url stats
  = Some stats.
Proof.
  intros Hfetch Hlater. unfold repoInfoIndex.
  rewrite indexBy_lookup.
  change (framework :: later) with ([framework] ++ later).
  rewrite !fetchedRepoInfo_app, !compact_app, !rev_app_distr, !find_app.
  rewrite find_key_None
    by by apply Forall_rev, fetched_not_reporting.
  unfold fetchedRepoInfo, R.map, RA.compact. simpl. rewrite Hfetch. simpl.
  by rewrite String.eqb_refl.
Qed.

End Fetched.

(** X9. When several fetched results report the same [html_url], the index
    holds the one fetched for the last such framework of the collection; a
    framework whose own result is that one, under its authored [repoURL],
    shows the counts of the result, each through [toLocaleString] or as the
    placeholder when the field is missing, and the license name without its
    first " License". *)
Theorem last_fetched_result_is_shown
    `{MarkdownUtils} `{Utils} `{Host} {Value : Type}
    (earlier later : list (Framework.t Value)) (framework : Framework.t Value)
    (stats : RepoInfo.t) :
  getRepoInfo (Framework.repoURL framework) = Some stats →
  Forall (λ other,
            ∀ stats', getRepoInfo (Framework.repoURL other) = Some stats' →
                      RepoInfo.html_url stats' ≠ RepoInfo.html_url stats)
         later →
  repoInfoIndex (earlier ++ framework :: later) !! RepoInfo.html_url stats
  = Some stats
  ∧ (RepoInfo.html_url stats = Framework.repoURL framework →
     statisticsRow (repoInfoIndex (earlier ++ framework :: later)) framework
     = [ Framework.frameworkName framework;
         link (removeProtocol (Framework.frameworkHomepage framework))
              (Framework.frameworkHomepage framework);
         link (Js.replace "github.com/" EmptyString
                 (removeProtocol (Framework.repoURL framework)))
              (Framework.repoURL framework);
         default noValue (toLocaleString <$> RepoInfo.stargazers_count stats);
         default noValue (toLocaleString <$> RepoInfo.forks_count stats);
         default noValue (toLocaleString <$> RepoInfo.open_issues_count stats);
         default noValue
           (Js.replace " License" EmptyString
              <$> (RepoInfo.license stats ≫= License.name)) ]).
Proof.
  intros Hfetch Hlater.
  pose proof (repoInfoIndex_last earlier later framework stats Hfetch Hlater)
    as Hindex.
  split; [done|]. intros Hurl. rewrite Hurl in Hindex.
  unfold statisticsRow, starsCell, forksCell, issuesCell, licenseCell.
  by rewrite Hindex.
Qed.

Lemma last_fetched_result_is_shown_witness :
  statisticsRow (repoInfoIndex [Fixture.acme; Fixture.beta]) Fixture.acme
  = [ "Acme"; "[acme.dev](https://acme.dev)";
      "[acme/acme](https://github.com/acme/acme)";
      "1200"; "34"; "5"; "MIT" ].
Proof.
  assert (Forall (λ other : Framework.t bool,
                    ∀ stats', getRepoInfo (Framework.repoURL other) = Some stats' →
                              RepoInfo.html_url stats'
                              ≠ RepoInfo.html_url Fixture.acmeStats)
                 [Fixture.beta]) as Hlater.
  { repeat constructor. intros stats' [= <-]. discriminate. }
  exact (proj2 (last_fetched_result_is_shown
                  [] [Fixture.beta] Fixture.acme Fixture.acmeStats
                  eq_refl Hlater) eq_refl).
Defined.

(** X10. A framework whose fetch yields nothing leaves no trace in the stats
    index: the index is the one built from the frameworks whose fetch
    yields a result. *)
Theorem failed_fetches_leave_no_trace `{Utils} {Value : Type}
    (frameworks : list (Framework.t Value)) :
  repoInfoIndex frameworks
  = repoInfoIndex
      (List.filter (λ framework,
                      match getRepoInfo (Framework.repoURL framework) with
                      | Some _ => true
                      | None => false
                      end)
                   frameworks).
Proof.
  unfold repoInfoIndex, fetchedRepoInfo, R.map. f_equal.
  induction frameworks as [|framework frameworks IH]; [reflexivity|].
  cbn [List.map List.filter].
  destruct (getRepoInfo (Framework.repoURL framework)) as [stats|] eqn:Hfetch.
  - cbn [List.map]. rewrite Hfetch.
    change (RA.compact (Some stats :: ?l)) with (stats :: RA.compact l).
    by rewrite IH.
  - exact IH.
Qed.

(** ** The text of the repository link *)

Lemma replace_unfold (pat rep s : string) :
  Js.replace pat rep s
  = if String.prefix pat s then rep +:+ Js.skip (String.length pat) s
    else match s with
         | EmptyString => EmptyString
         | String c s' => String c (Js.replace pat rep s')
         end.
Proof. by destruct s. Qed.

Lemma skip_append (pat s : string) :
  Js.skip (String.length pat) (pat +:+ s) = s.
Proof. induction pat as [|c pat IH]; [reflexivity|]. exact IH. Qed.

Lemma replace_prefix (pat rep s : string) :
  Js.replace pat rep (pat +:+ s) = rep +:+ s.
Proof. by rewrite replace_unfold, prefix_append, skip_append. Qed.

(** X11. The text of the repository link is the repository URL without its
    protocol and without its first "github.com/": a URL that reads
    "github.com/" and a path after the protocol is shown as the path, and a
    URL without "github.com/" is shown as it is after the protocol. *)
Theorem repository_link_text `{MarkdownUtils} `{Utils} `{Host} {Value : Type}
    (repoInfo : gmap string RepoInfo.t) (framework : Framework.t Value) :
  (∀ path,
     removeProtocol (Framework.repoURL framework) = "github.com/" +:+ path →
     statisticsRow repoInfo framework !! 2
     = Some (link path (Framework.repoURL framework)))
  ∧ (Js.includes "github.com/" (removeProtocol (Framework.repoURL framework))
     = false →
     statisticsRow repoInfo framework !! 2
     = Some (link (removeProtocol (Framework.repoURL framework))
                  (Framework.repoURL framework))).
Proof.
  split.
  - intros path Hpath. unfold statisticsRow. simpl.
    by rewrite Hpath, replace_prefix.
  - intros Habsent. unfold statisticsRow. simpl.
    by rewrite replace_absent.
Qed.

Lemma repository_link_text_witness :
  statisticsRow ∅ Fixture.acme !! 2
  = Some "[acme/acme](https://github.com/acme/acme)".
Proof.
  exact (proj1 (repository_link_text ∅ Fixture.acme) "acme/acme" eq_refl).
Defined.

(** ** The framework feature table *)

(** X12. The feature table has the header "Name" and then one header per
    feature of the registry, and one row per framework, in collection order;
    a row is as long as the header row, and its cell under a feature's name
    is that feature's [toMarkdown] of the framework's value for the feature,
    [undefined] when the framework records none. *)
Theorem framework_features_table `{MarkdownUtils} {Value : Type}
    (frameworks : list (Framework.t Value))
    (frameworkInfo : list (FrameworkInfo.t Value)) :
  frameworkFeaturesSectionMarkdown frameworks frameworkInfo
  = lines [
      h2 "Framework Features";
      criteria (List.map (λ info,
                            (FrameworkInfo.name info, FrameworkInfo.criteria info))
                         frameworkInfo);
      table (frameworkFeaturesHeaders frameworkInfo)
            (List.map (frameworkFeaturesRow frameworkInfo) frameworks)
    ]
  ∧ length (frameworkFeaturesHeaders frameworkInfo) = 1 + length frameworkInfo
  ∧ Forall (λ cells,
              length cells = length (frameworkFeaturesHeaders frameworkInfo))
           (List.map (frameworkFeaturesRow frameworkInfo) frameworks)
  ∧ ∀ (i : nat) (feature : FrameworkInfo.t Value),
      frameworkInfo !! i = Some feature →
      frameworkFeaturesHeaders frameworkInfo !! (1 + i)
      = Some (FrameworkInfo.name feature)
      ∧ ∀ framework,
          frameworkFeaturesRow frameworkInfo framework !! (1 + i)
          = Some (FrameworkInfo.toMarkdown feature
                    (Framework.frameworkFeaturesById framework
                       !! FrameworkInfo.featureId feature)).
Proof.
  split; [reflexivity|].
  unfold frameworkFeaturesHeaders, frameworkFeaturesRow, R.pluck, R.map.
  split; [simpl; by rewrite length_map|]. split.
  - apply Forall_map, Forall_forall. intros framework _. simpl.
    by rewrite !length_map.
  - intros i feature Hfeature. simpl. rewrite lookup_map, Hfeature.
    split; [done|]. intros framework. by rewrite lookup_map, Hfeature.
Qed.

Lemma framework_features_table_witness :
  frameworkFeaturesHeaders [Fixture.darkMode] !! 1 = Some "Dark Mode"
  ∧ frameworkFeaturesRow [Fixture.darkMode] Fixture.acme !! 1 = Some "N/A".
Proof.
  pose proof (proj2 (proj2 (proj2 (framework_features_table
                                     [Fixture.acme] [Fixture.darkMode])))
                0 Fixture.darkMode eq_refl) as [Hheader Hcell].
  exact (conj Hheader (Hcell Fixture.acme)).
Defined.
